(** * xpublish image router: a shallow embedding of [src/xpublish/image_router.py]

    The module under study registers two FastAPI routes on [image_router]
    and renders a slice of an xarray dataset as a PNG image.  Everything
    geospatial is done by libraries (pyproj, cf_xarray, rioxarray, xesmf,
    mercantile, matplotlib, PIL); the Python file itself is the glue.

    Layout of this development:
    - [Py]      : the Python builtins the handlers use ([str.split], [float]),
                  exceptions, and the numeric values that flow through;
    - [Np]      : the array arithmetic written out in the handlers
                  ([linspace], [min], [max], the scaling expression, [uint8]);
    - [Libs]    : the interface of the external libraries, as a record of
                  fallible operations;
    - the router: the request model, the handler monad, the two handlers
                  and the route table;
    - [Toy]     : one small executable instance of [Libs], to run the
                  handlers on concrete requests;
    - the vocabulary of the properties, then the properties, one part
      for each of C1 to C10, and further properties (X1 to X13) of
      request construction, the bounding box, the data path, the tile
      grid and the pixels.

    Conventions.  Python [str] values are modelled as [string], read as
    sequences of code points below 256.  Finite floating point numbers are
    modelled by the rationals they denote and arithmetic on them is exact;
    rounding is outside the model.  A raised exception is the left summand
    of a [result]. *)

From Stdlib Require Import List String Ascii Bool ZArith QArith Qminmax Lia Lqa.
From Stdlib Require Import Qround.
Import ListNotations.

Local Open Scope string_scope.
Local Open Scope list_scope.
Local Open Scope Z_scope.

(* ================================================================== *)
(** * Python builtins *)

Module Py.

(** Exceptions that can leave a handler.  [LibraryError] stands for an
    exception raised inside one of the external libraries. *)
Inductive Exn : Type :=
| ValueError
| KeyError
| ValidationError          (* pydantic, raised by [ImageQuery(...)] *)
| RequestValidationError   (* FastAPI, a required parameter is missing *)
| LibraryError (origin : string).

Definition result (A : Type) : Type := (Exn + A)%type.

(** A Python [float]: a finite value, an infinity or a NaN. *)
Inductive pyfloat : Type :=
| Finite (q : Q)
| Inf (negative : bool)
| NaN.

(** ** [str.split(sep)] for a one-character separator

    Every occurrence of the separator cuts; the empty string splits into
    one empty piece. *)
Fixpoint split (sep : ascii) (s : string) : list string :=
  match s with
  | EmptyString => [EmptyString]
  | String c s' =>
      if Ascii.eqb c sep then EmptyString :: split sep s'
      else match split sep s' with
           | [] => [String c EmptyString]
           | p :: ps => String c p :: ps
           end
  end.

(** ** [float(str)]

    The grammar of the Python language reference:
<<
    sign          ::= "+" | "-"
    infinity      ::= "Infinity" | "inf"
    nan           ::= "nan"
    digitpart     ::= digit (["_"] digit)*
    number        ::= [digitpart] "." digitpart | digitpart ["."]
    exponent      ::= ("e" | "E") [sign] digitpart
    floatnumber   ::= number [exponent]
    absfloatvalue ::= floatnumber | infinity | nan
    floatvalue    ::= [sign] absfloatvalue
>>
    Case is not significant for [inf], [infinity] and [nan]; leading and
    trailing whitespace is removed first. *)

Definition is_space (c : ascii) : bool :=
  let n := N_of_ascii c in
  (((9 <=? n) && (n <=? 13)) || ((28 <=? n) && (n <=? 32))
   || (n =? 133) || (n =? 160))%N.

Definition digit_val (c : ascii) : option Z :=
  let n := N_of_ascii c in
  if ((48 <=? n) && (n <=? 57))%N then Some (Z.of_N n - 48) else None.

Fixpoint lstrip (s : list ascii) : list ascii :=
  match s with
  | c :: s' => if is_space c then lstrip s' else s
  | [] => []
  end.

Definition strip (s : list ascii) : list ascii :=
  rev (lstrip (rev (lstrip s))).

(** [(["_"] digit)*]: the digits read and what is left. *)
Fixpoint digits_tail (s : list ascii) : list Z * list ascii :=
  match s with
  | [] => ([], [])
  | c :: s' =>
      match digit_val c with
      | Some d => let (ds, r) := digits_tail s' in (d :: ds, r)
      | None =>
          if Ascii.eqb c "_" then
            match s' with
            | c' :: s'' =>
                match digit_val c' with
                | Some d => let (ds, r) := digits_tail s'' in (d :: ds, r)
                | None => ([], s)
                end
            | [] => ([], s)
            end
          else ([], s)
      end
  end.

Definition digitpart (s : list ascii) : option (list Z * list ascii) :=
  match s with
  | c :: s' =>
      match digit_val c with
      | Some d => let (ds, r) := digits_tail s' in Some (d :: ds, r)
      | None => None
      end
  | [] => None
  end.

Definition digits_to_Z (ds : list Z) : Z :=
  fold_left (fun acc d => 10 * acc + d) ds 0.

(** [number]: integer digits, fraction digits, rest. *)
Definition number (s : list ascii) : option (list Z * list Z * list ascii) :=
  match digitpart s with
  | Some (ip, r) =>
      match r with
      | c :: r' =>
          if Ascii.eqb c "." then
            match digitpart r' with
            | Some (fp, r'') => Some (ip, fp, r'')
            | None => Some (ip, [], r')
            end
          else Some (ip, [], r)
      | [] => Some (ip, [], [])
      end
  | None =>
      match s with
      | c :: r' =>
          if Ascii.eqb c "." then
            match digitpart r' with
            | Some (fp, r'') => Some ([], fp, r'')
            | None => None
            end
          else None
      | [] => None
      end
  end.

(** [[sign]]: whether a minus was read, and the rest. *)
Definition sign (s : list ascii) : bool * list ascii :=
  match s with
  | c :: s' =>
      if Ascii.eqb c "-" then (true, s')
      else if Ascii.eqb c "+" then (false, s')
      else (false, s)
  | [] => (false, [])
  end.

Definition exponent (s : list ascii) : option (Z * list ascii) :=
  match s with
  | c :: r =>
      if Ascii.eqb c "e" || Ascii.eqb c "E" then
        let (neg, r1) := sign r in
        match digitpart r1 with
        | Some (ds, r2) =>
            Some (if neg then - digits_to_Z ds else digits_to_Z ds, r2)
        | None => None
        end
      else None
  | [] => None
  end.

(** [m * 10^e] as a rational. *)
Definition scale10 (m e : Z) : Q :=
  if 0 <=? e then inject_Z (m * 10 ^ e)
  else Qmake m (Z.to_pos (10 ^ (- e))).

Definition floatnumber (s : list ascii) : option Q :=
  match number s with
  | Some (ip, fp, r) =>
      let m := digits_to_Z (ip ++ fp) in
      let k := Z.of_nat (List.length fp) in
      match r with
      | [] => Some (scale10 m (- k))
      | _ =>
          match exponent r with
          | Some (e, []) => Some (scale10 m (e - k))
          | _ => None
          end
      end
  | None => None
  end.

Definition lower (c : ascii) : ascii :=
  let n := N_of_ascii c in
  if ((65 <=? n) && (n <=? 90))%N then ascii_of_N (n + 32) else c.

Definition absfloatvalue (s : list ascii) : option pyfloat :=
  let l := string_of_list_ascii (map lower s) in
  if String.eqb l "inf" || String.eqb l "infinity" then Some (Inf false)
  else if String.eqb l "nan" then Some NaN
  else option_map Finite (floatnumber s).

Definition negate (f : pyfloat) : pyfloat :=
  match f with
  | Finite q => Finite (- q)
  | Inf b => Inf (negb b)
  | NaN => NaN
  end.

Definition floatvalue (s : list ascii) : option pyfloat :=
  let (neg, r) := sign s in
  option_map (fun f => if neg then negate f else f) (absfloatvalue r).

(** [float(s)]: [None] is [ValueError]. *)
Definition float (s : string) : option pyfloat :=
  floatvalue (strip (list_ascii_of_string s)).

End Py.

Import Py.

(* ================================================================== *)
(** * Array arithmetic *)

(** A two-dimensional array of finite values, as a list of rows. *)
Definition raster : Type := list (list Q).

Module Np.

(** [arr.shape] of a two-dimensional array: (rows, columns). *)
Definition shape {A : Type} (r : list (list A)) : nat * nat :=
  (List.length r, match r with row :: _ => List.length row | [] => O end).

Definition rectangular {A : Type} (r : list (list A)) : Prop :=
  forall row, In row r -> List.length row = snd (shape r).

(** [numpy.linspace(start, stop, num)] with its defaults
    ([endpoint=True]): a negative [num] raises [ValueError]; otherwise
    [y = arange(num) * step + start] with [step = (stop - start) / (num - 1)],
    and the last sample is overwritten by [stop] when [num > 1]. *)
Definition set_last (y : list Q) (v : Q) : list Q := removelast y ++ [v].

Definition linspace (start stop : Q) (num : Z) : result (list Q) :=
  if num <? 0 then inl ValueError
  else
    let div := num - 1 in
    let delta := (stop - start)%Q in
    let y := map (fun i => inject_Z (Z.of_nat i)) (seq 0 (Z.to_nat num)) in
    let y := if 0 <? div then map (fun v => v * (delta / inject_Z div))%Q y
             else map (fun v => v * delta)%Q y in
    let y := map (fun v => v + start)%Q y in
    inr (if 1 <? num then set_last y stop else y).

(** [arr.min()] and [arr.max()] over all cells; an empty array raises
    [ValueError]. *)
Definition reduce (f : Q -> Q -> Q) (r : raster) : result Q :=
  match List.concat r with
  | [] => inl ValueError
  | v :: vs => inr (fold_left f vs v)
  end.

Definition amin : raster -> result Q := reduce Qmin.
Definition amax : raster -> result Q := reduce Qmax.

(** Floating point division of finite values: a zero divisor gives
    a NaN ([0/0]) or an infinity, not an exception. *)
Definition true_divide (x d : Q) : pyfloat :=
  if Qeq_bool d 0 then
    if Qeq_bool x 0 then NaN
    else Inf (if Qlt_le_dec x 0 then true else false)
  else Finite (x / d).

(** The scaling expression of both handlers,
    [(resampled_data - min_value) / (max_value - min_value)],
    cell by cell. *)
Definition scale (min_value max_value : Q) (r : raster) : list (list pyfloat) :=
  map (map (fun v => true_divide (v - min_value) (max_value - min_value))) r.

(** [np.uint8(x)] of a float: the fraction is dropped, the result is
    taken modulo 256. *)
Definition uint8 (x : Q) : Z := (Qnum x ÷ Zpos (Qden x)) mod 256.

End Np.

(* ================================================================== *)
(** * The external libraries *)

Definition CRS : Type := string.

(** [mercantile.LngLatBbox] *)
Record LngLatBbox : Type := {
  west : Q;
  south : Q;
  east : Q;
  north : Q
}.

(** A value of the dictionary passed to [Dataset.cf.sel]. *)
Inductive Indexer : Type :=
| Slice (start stop : pyfloat)
| Label (value : string).

Definition Indexers : Type := list (string * Indexer).

Inductive Resampling : Type := nearest | bilinear | cubic.

(** The dataset built at lines 104-107: two coordinate vectors. *)
Record GridOut : Type := {
  lat : list Q;
  lon : list Q
}.

(** One RGBA sample of a colour map, four floats. *)
Definition rgba : Type := (Q * Q * Q * Q)%type.
Definition pixel : Type := (Z * Z * Z * Z)%type.

(** A [matplotlib] colour map is called on an array and returns, for each
    cell, one RGBA sample. *)
Definition Colormap : Type := pyfloat -> rgba.

(** [PIL.Image]: the pixel rows. [Image.fromarray] of an array of shape
    (rows, columns, 4) gives an image [columns] wide and [rows] tall. *)
Record Image : Type := { rows : list (list pixel) }.

Definition Image_fromarray (a : list (list pixel)) : Image := {| rows := a |}.
Definition Image_width (im : Image) : nat := snd (Np.shape (rows im)).
Definition Image_height (im : Image) : nat := fst (Np.shape (rows im)).

(** The operations the handlers call on other packages.  Each may raise.
    An operation is a function of values: [cf.sel], [squeeze] and
    [rio.write_crs] (with its default [inplace=False]) return a new object
    and leave their receiver as it was. *)
Record Libs : Type := {
  Dataset : Type;
  DataArray : Type;
  Transformer : Type;
  Regridder : Type;
  (* pyproj *)
  Transformer_from_crs : string -> string -> result Transformer;
  Transformer_transform : Transformer -> pyfloat -> pyfloat -> result (pyfloat * pyfloat);
  (* xarray, cf_xarray *)
  cf_sel : Dataset -> Indexers -> result Dataset;
  squeeze : Dataset -> result Dataset;
  getitem : Dataset -> string -> result DataArray;
  values : DataArray -> raster;
  (* rioxarray *)
  rio_crs : Dataset -> option CRS;
  rio_write_crs : Dataset -> Z -> result Dataset;
  da_rio_write_crs : DataArray -> Z -> result DataArray;
  da_rio_set_spatial_dims : DataArray -> string -> string -> result DataArray;
  da_rio_reproject :
    DataArray -> string -> option (Z * Z) -> option Resampling -> result DataArray;
  (* mercantile *)
  bounds : Z -> Z -> Z -> result LngLatBbox;
  (* xesmf *)
  Regridder_new : Dataset -> GridOut -> string -> result Regridder;
  Regridder_call : Regridder -> DataArray -> result DataArray;
  (* matplotlib *)
  get_cmap : string -> result Colormap;
  (* PIL *)
  Image_save : Image -> string -> result (list Byte.byte)
}.

(** rioxarray documents the [shape] argument of [reproject] as
    (dst_height, dst_width): the destination has that many rows and
    columns. *)
Definition reproject_shape_law (L : Libs) : Prop :=
  forall da crs h w rs da',
    da_rio_reproject L da crs (Some (h, w)) rs = inr da' ->
    Np.shape (values L da') = (Z.to_nat h, Z.to_nat w)
    /\ Np.rectangular (values L da').

(* ================================================================== *)
(** * The router *)

(** What a run does, in program order: one event per operation of the
    handler body.  The trace is ghost state; it lets the properties speak
    about the order of the operations and about their arguments. *)
Inductive Event : Type :=
| EvResolveParams
| EvParseBbox (s : string)
| EvFromCrs (src dst : string)
| EvTransform (x y : pyfloat)
| EvKeepCoords
| EvSel (ix : Indexers)
| EvSqueeze
| EvWriteCrs (epsg : Z)
| EvGetItem (name : string)
| EvReproject (dst_crs : string) (shape : option (Z * Z)) (rs : option Resampling)
| EvMin
| EvMax
| EvScale (min_value max_value : Q)
| EvGetCmap (name : string)
| EvFromArray
| EvSave (format : string)
| EvResponse (media : string)
| EvBounds (x y z : Z)
| EvLogWarning
| EvLinspace (start stop : Q) (num : Z)
| EvRegridder (ds_out : GridOut) (method : string)
| EvRegrid
| EvDaWriteCrs (epsg : Z)
| EvSetSpatialDims (x_dim y_dim : string).

(** [fastapi.Response] *)
Record Response : Type := {
  content : list Byte.byte;
  media_type : string
}.

(** [class ImageQuery(BaseModel)], lines 30-37. *)
Record ImageQuery : Type := {
  bbox : string;
  width : Z;
  height : Z;
  parameter : string;
  datetime : string;
  crs : string;
  cmap : option string
}.

Definition set_cmap (q : ImageQuery) (v : string) : ImageQuery :=
  {| bbox := bbox q; width := width q; height := height q;
     parameter := parameter q; datetime := datetime q; crs := crs q;
     cmap := Some v |}.

(** Truth value of an optional string ([None] and [""] are false). *)
Definition truthy (o : option string) : bool :=
  match o with
  | Some s => negb (String.eqb s "")
  | None => false
  end.

(** Pydantic's validation in [ImageQuery(...)]: every field but [cmap] is
    declared with [Field(...)] and a non-optional type, so [None] is
    refused. The arguments arrive typed from [image_query], where only
    [crs] and [cmap] can be [None]. *)
Definition ImageQuery_init (bbox : string) (width height : Z)
    (parameter : string) (cmap : option string) (datetime : string)
    (crs : option string) : result ImageQuery :=
  match crs with
  | None => inl ValidationError
  | Some c =>
      inr {| bbox := bbox; width := width; height := height;
             parameter := parameter; datetime := datetime; crs := c;
             cmap := cmap |}
  end.

(** [def image_query(...)], lines 40-48. *)
Definition image_query (bbox : string) (width height : Z)
    (parameter datetime : string) (crs : option string)
    (cmap : option string) : result ImageQuery :=
  ImageQuery_init bbox width height parameter cmap datetime crs.

(** The query string of a request to ['/'], after FastAPI has converted
    each parameter that is present to its declared type. *)
Record RawQuery : Type := {
  q_bbox : option string;
  q_width : option Z;
  q_height : option Z;
  q_parameter : option string;
  q_datetime : option string;
  q_crs : option string;
  q_cmap : option string
}.

(** A parameter of a dependency that has no default must be present. *)
Definition required {A : Type} (o : option A) : result A :=
  match o with
  | Some a => inr a
  | None => inl RequestValidationError
  end.

(** [Depends(image_query)]: FastAPI calls [image_query] with the query
    parameters; [crs] and [cmap] have the default [None]. *)
Definition resolve_image_query (r : RawQuery) : result ImageQuery :=
  match required (q_bbox r) with inl e => inl e | inr b =>
  match required (q_width r) with inl e => inl e | inr w =>
  match required (q_height r) with inl e => inl e | inr h =>
  match required (q_parameter r) with inl e => inl e | inr p =>
  match required (q_datetime r) with inl e => inl e | inr d =>
  image_query b w h p d (q_crs r) (q_cmap r)
  end end end end end.

(** Line 52: [[float(x) for x in query.bbox.split(',')]] unpacked into
    four names.  A piece [float] refuses and a number of pieces other
    than four both raise [ValueError]. *)
Fixpoint floats (pieces : list string) : result (list pyfloat) :=
  match pieces with
  | [] => inr []
  | p :: ps =>
      match float p with
      | None => inl ValueError
      | Some f =>
          match floats ps with
          | inl e => inl e
          | inr fs => inr (f :: fs)
          end
      end
  end.

Definition parse_bbox (s : string)
  : result (pyfloat * pyfloat * pyfloat * pyfloat) :=
  match floats (split "," s) with
  | inl e => inl e
  | inr [xmin; ymin; xmax; ymax] => inr (xmin, ymin, xmax, ymax)
  | inr _ => inl ValueError
  end.

(** [np.uint8(cmap(ds_scaled) * 255)] and [Image.fromarray]. *)
Definition to_pixel (c : rgba) : pixel :=
  let '(r, g, b, a) := c in
  (Np.uint8 (r * 255), Np.uint8 (g * 255), Np.uint8 (b * 255), Np.uint8 (a * 255)).

Definition colorize (cm : Colormap) (ds_scaled : list (list pyfloat)) : Image :=
  Image_fromarray (map (map (fun v => to_pixel (cm v))) ds_scaled).

(** ** The handler monad

    A handler runs against a [World]: the dataset object that the
    [get_dataset] dependency hands to every request, and the records sent
    to the module's logger.  A run returns the world it leaves, the events
    it performed and a value or an exception. *)
Section Handlers.

Context (L : Libs).

Record World : Type := {
  w_dataset : Dataset L;
  w_log : list LngLatBbox
}.

Record Outcome (A : Type) : Type := {
  world : World;
  trace : list Event;
  value : result A
}.
Arguments world {A} _.
Arguments trace {A} _.
Arguments value {A} _.

Definition M (A : Type) : Type := World -> Outcome A.

Definition ret {A : Type} (a : A) : M A :=
  fun w => {| world := w; trace := []; value := inr a |}.

Definition bind {A B : Type} (m : M A) (k : A -> M B) : M B :=
  fun w =>
    let o := m w in
    match value o with
    | inl e => {| world := world o; trace := trace o; value := inl e |}
    | inr a =>
        let o' := k a (world o) in
        {| world := world o'; trace := trace o ++ trace o'; value := value o' |}
    end.

(** An operation that may raise, recorded in the trace. *)
Definition call {A : Type} (ev : Event) (r : result A) : M A :=
  fun w => {| world := w; trace := [ev]; value := r |}.

Definition tick (ev : Event) : M unit := call ev (inr tt).

(** [logger.warning(bbox)] *)
Definition logger_warning (b : LngLatBbox) : M unit :=
  fun w => {| world := {| w_dataset := w_dataset w; w_log := w_log w ++ [b] |};
              trace := [EvLogWarning]; value := inr tt |}.

(** [Depends(get_dataset)] *)
Definition get_dataset : M (Dataset L) :=
  fun w => {| world := w; trace := []; value := inr (w_dataset w) |}.

Notation "x <- m ;; k" := (bind m (fun x => k))
  (at level 61, m at next level, right associativity).
Notation "' pat <- m ;; k" := (bind m (fun x => match x with pat => k end))
  (at level 61, pat pattern, m at next level, right associativity).
Notation "m ;;; k" := (bind m (fun _ => k))
  (at level 61, right associativity).

(** ** [get_image], lines 50-93 *)
Definition get_image (query : ImageQuery) (dataset : Dataset L) : M Response :=
  '(xmin, ymin, xmax, ymax) <- call (EvParseBbox (bbox query)) (parse_bbox (bbox query)) ;;
  '(min_coord, max_coord) <-
    (if negb (String.eqb (crs query) "EPSG:4326") then
       transformer <- call (EvFromCrs (crs query) "EPSG:4326")
                           (Transformer_from_crs L (crs query) "EPSG:4326") ;;
       min_coord <- call (EvTransform xmin ymin)
                         (Transformer_transform L transformer xmin ymin) ;;
       max_coord <- call (EvTransform xmax ymax)
                         (Transformer_transform L transformer xmax ymax) ;;
       ret (min_coord, max_coord)
     else
       tick EvKeepCoords ;;;
       ret ((xmin, ymin), (xmax, ymax))) ;;
  let ix := [("X", Slice (fst min_coord) (fst max_coord));
             ("Y", Slice (snd min_coord) (snd max_coord));
             ("T", Label (datetime query))] in
  q <- call (EvSel ix) (cf_sel L dataset ix) ;;
  q <- call EvSqueeze (squeeze L q) ;;
  q <- (if negb (truthy (rio_crs L q)) then
          call (EvWriteCrs 4326) (rio_write_crs L q 4326)
        else ret q) ;;
  da <- call (EvGetItem (parameter query)) (getitem L q (parameter query)) ;;
  resampled_data <-
    call (EvReproject (crs query) (Some (width query, height query)) (Some bilinear))
         (da_rio_reproject L da (crs query)
            (Some (width query, height query)) (Some bilinear)) ;;
  min_value <- call EvMin (Np.amin (values L resampled_data)) ;;
  max_value <- call EvMax (Np.amax (values L resampled_data)) ;;
  tick (EvScale min_value max_value) ;;;
  let ds_scaled := Np.scale min_value max_value (values L resampled_data) in
  let query := if negb (truthy (cmap query)) then set_cmap query "rainbow" else query in
  let name := match cmap query with Some n => n | None => "" end in
  cm <- call (EvGetCmap name) (get_cmap L name) ;;
  tick EvFromArray ;;;
  let im := colorize cm ds_scaled in
  image_bytes <- call (EvSave "PNG") (Image_save L im "PNG") ;;
  tick (EvResponse "image/png") ;;;
  ret {| content := image_bytes; media_type := "image/png" |}.

(** ** [get_image_tile], lines 95-132 *)
Definition get_image_tile (parameter t : string) (z x y : Z) (size : Z)
    (dataset : Dataset L) : M Response :=
  dataset <- (if negb (truthy (rio_crs L dataset)) then
                call (EvWriteCrs 4326) (rio_write_crs L dataset 4326)
              else ret dataset) ;;
  q <- call (EvSel [("T", Label t)]) (cf_sel L dataset [("T", Label t)]) ;;
  q <- call EvSqueeze (squeeze L q) ;;
  bbox <- call (EvBounds x y z) (bounds L x y z) ;;
  logger_warning bbox ;;;
  lat_v <- call (EvLinspace (south bbox) (north bbox) size)
                (Np.linspace (south bbox) (north bbox) size) ;;
  lon_v <- call (EvLinspace (west bbox) (east bbox) size)
                (Np.linspace (west bbox) (east bbox) size) ;;
  let ds_out := {| lat := lat_v; lon := lon_v |} in
  regridder <- call (EvRegridder ds_out "bilinear")
                    (Regridder_new L q ds_out "bilinear") ;;
  da <- call (EvGetItem parameter) (getitem L q parameter) ;;
  resampled_data <- call EvRegrid (Regridder_call L regridder da) ;;
  resampled_data <- call (EvDaWriteCrs 4326) (da_rio_write_crs L resampled_data 4326) ;;
  resampled_data <- call (EvSetSpatialDims "lon" "lat")
                         (da_rio_set_spatial_dims L resampled_data "lon" "lat") ;;
  resampled_data <- call (EvReproject "EPSG:3857" None None)
                         (da_rio_reproject L resampled_data "EPSG:3857" None None) ;;
  let min_value := inject_Z 0 in
  let max_value := inject_Z 5 in
  tick (EvScale min_value max_value) ;;;
  let ds_scaled := Np.scale min_value max_value (values L resampled_data) in
  cm <- call (EvGetCmap "rainbow") (get_cmap L "rainbow") ;;
  tick EvFromArray ;;;
  let im := colorize cm ds_scaled in
  image_bytes <- call (EvSave "PNG") (Image_save L im "PNG") ;;
  tick (EvResponse "image/png") ;;;
  ret {| content := image_bytes; media_type := "image/png" |}.

(** ** The route table and the dispatch of a request *)

Inductive Method : Type := GET | POST | PUT | DELETE.

Inductive Endpoint : Type := ep_get_image | ep_get_image_tile.

Record Route : Type := {
  route_method : Method;
  route_path : string;
  route_endpoint : Endpoint
}.

(** [image_router = APIRouter()] after the two [@image_router.get]
    decorators have run. *)
Definition image_router : list Route :=
  [ {| route_method := GET; route_path := "/";
       route_endpoint := ep_get_image |};
    {| route_method := GET; route_path := "/tile/{parameter}/{t}/{z}/{x}/{y}";
       route_endpoint := ep_get_image_tile |} ].

(** A request that matched one of the two routes, its parameters
    converted to their declared types. *)
Inductive Request : Type :=
| ReqImage (r : RawQuery)
| ReqTile (parameter t : string) (z x y : Z) (size : option Z).

(** FastAPI resolves the parameters and the dependencies, then calls the
    endpoint.  [size] has the default 256. *)
Definition serve (r : Request) : M Response :=
  match r with
  | ReqImage raw =>
      query <- call EvResolveParams (resolve_image_query raw) ;;
      dataset <- get_dataset ;;
      get_image query dataset
  | ReqTile parameter t z x y size =>
      tick EvResolveParams ;;;
      dataset <- get_dataset ;;
      get_image_tile parameter t z x y
        (match size with Some s => s | None => 256 end) dataset
  end.

End Handlers.

Arguments w_dataset {L} _.
Arguments w_log {L} _.
Arguments world {L A} _.
Arguments trace {L A} _.
Arguments value {L A} _.

(* ================================================================== *)
(** * A small executable instance of the libraries

    Enough behaviour to run both handlers on concrete requests: a
    dataset is a list of named two-dimensional variables; selection and
    coordinate transformation are the identity; resampling to a given
    shape repeats the source cells; the only colour maps are grey ramps. *)
Module Toy.

Record ds : Type := {
  ds_crs : option CRS;
  ds_vars : list (string * raster)
}.

Fixpoint lookup (name : string) (vars : list (string * raster)) : option raster :=
  match vars with
  | [] => None
  | (n, r) :: vars' => if String.eqb n name then Some r else lookup name vars'
  end.

Definition cell (r : raster) (i j : nat) : Q :=
  nth (j mod snd (Np.shape r)) (nth (i mod fst (Np.shape r)) r []) 0%Q.

Definition resample (r : raster) (h w : nat) : raster :=
  map (fun i => map (fun j => cell r i j) (seq 0 w)) (seq 0 h).

Definition reproject (r : raster) (dst : string) (shape : option (Z * Z))
    (rs : option Resampling) : result raster :=
  match shape with
  | None => inr r
  | Some (h, w) =>
      if (h <=? 0) || (w <=? 0) then inl (LibraryError "rasterio")
      else inr (resample r (Z.to_nat h) (Z.to_nat w))
  end.

Definition grey (v : pyfloat) : rgba :=
  match v with
  | Finite q => (q, q, q, 1%Q)
  | _ => (0%Q, 0%Q, 0%Q, 0%Q)
  end.

Definition byte_of (z : Z) : Byte.byte :=
  match Byte.of_N (Z.to_N z) with
  | Some b => b
  | None => Byte.x00
  end.

(** The stand-in for an encoder: the two dimensions, then one byte per
    pixel. *)
Definition save (im : Image) (format : string) : result (list Byte.byte) :=
  if String.eqb format "PNG" then
    inr (byte_of (Z.of_nat (Image_width im))
         :: byte_of (Z.of_nat (Image_height im))
         :: map (fun p => let '(r, _, _, _) := p in byte_of r) (List.concat (rows im)))
  else inl ValueError.

Definition libs : Libs := {|
  Dataset := ds;
  DataArray := raster;
  Transformer := unit;
  Regridder := GridOut;
  Transformer_from_crs := fun src dst =>
    if String.prefix "EPSG:" src then inr tt else inl (LibraryError "pyproj");
  Transformer_transform := fun _ x y => inr (x, y);
  cf_sel := fun d _ => inr d;
  squeeze := fun d => inr d;
  getitem := fun d name =>
    match lookup name (ds_vars d) with
    | Some r => inr r
    | None => inl KeyError
    end;
  values := fun r => r;
  rio_crs := ds_crs;
  rio_write_crs := fun d _ => inr {| ds_crs := Some "EPSG:4326"; ds_vars := ds_vars d |};
  da_rio_write_crs := fun r _ => inr r;
  da_rio_set_spatial_dims := fun r _ _ => inr r;
  da_rio_reproject := reproject;
  bounds := fun x y z =>
    inr {| west := inject_Z x; south := inject_Z (- y - 1);
           east := inject_Z (x + 1); north := inject_Z (- y) |};
  Regridder_new := fun _ g _ => inr g;
  Regridder_call := fun g _ =>
    inr (map (fun la => map (fun lo => (la + lo)%Q) (lon g)) (lat g));
  get_cmap := fun name =>
    if String.eqb name "rainbow" || String.eqb name "gray" then inr grey
    else inl ValueError;
  Image_save := save
|}.

Definition dataset0 : ds :=
  {| ds_crs := None;
     ds_vars := [("temp", [[1%Q; 2%Q]; [3%Q; 4%Q]])] |}.

Definition world0 : World libs := Build_World libs dataset0 [].

Definition query0 : RawQuery :=
  {| q_bbox := Some "0,0,10,10"; q_width := Some 3; q_height := Some 2;
     q_parameter := Some "temp"; q_datetime := Some "2022-01-01";
     q_crs := Some "EPSG:4326"; q_cmap := None |}.

End Toy.

(* ================================================================== *)
(** * The vocabulary of the properties *)

(** All the cells of an array, row after row. *)
Definition cells (r : raster) : list Q := List.concat r.

(** The data is constant when any two cells are equal as numbers. *)
Definition constant (r : raster) : Prop :=
  forall v1 v2, In v1 (cells r) -> In v2 (cells r) -> (v1 == v2)%Q.

Definition is_minimum (lo : Q) (r : raster) : Prop :=
  In lo (cells r) /\ forall v, In v (cells r) -> (lo <= v)%Q.

Definition is_maximum (hi : Q) (r : raster) : Prop :=
  In hi (cells r) /\ forall v, In v (cells r) -> (v <= hi)%Q.

(** The colour map name [get_image] ends up with (lines 85-87). *)
Definition cmap_used (q : ImageQuery) : string :=
  match cmap q with
  | Some n => if String.eqb n "" then "rainbow" else n
  | None => "rainbow"
  end.

(** [size: int = 256] in the signature of [get_image_tile]. *)
Definition size_or_default (size : option Z) : Z :=
  match size with Some s => s | None => 256 end.

(** The image a completed request has rendered: the colour map applied to
    the scaled resampled data. *)
Definition rendered (L : Libs) (r : Request) (im : Image) : Prop :=
  match r with
  | ReqImage raw =>
      exists q da rd lo hi cm,
        resolve_image_query raw = inr q
        /\ da_rio_reproject L da (crs q) (Some (width q, height q)) (Some bilinear)
           = inr rd
        /\ Np.amin (values L rd) = inr lo
        /\ Np.amax (values L rd) = inr hi
        /\ get_cmap L (cmap_used q) = inr cm
        /\ im = colorize cm (Np.scale lo hi (values L rd))
  | ReqTile _ _ _ _ _ _ =>
      exists rd cm,
        get_cmap L "rainbow" = inr cm
        /\ im = colorize cm (Np.scale (inject_Z 0) (inject_Z 5) (values L rd))
  end.

Inductive Stage : Type :=
| Parse | TransformBbox | SliceDataset | Resample
| Normalize | Colorize | Encode | Respond.

Definition Stage_eqb (a b : Stage) : bool :=
  match a, b with
  | Parse, Parse | TransformBbox, TransformBbox | SliceDataset, SliceDataset
  | Resample, Resample | Normalize, Normalize | Colorize, Colorize
  | Encode, Encode | Respond, Respond => true
  | _, _ => false
  end.

(** The pipeline step an operation belongs to.  Resolving the parameters
    and line 52 parse the request; the transformer, the pass-through of
    line 59-60 and [mercantile.bounds] produce the bounding box;
    [cf.sel], [squeeze] and [write_crs] on the dataset slice it; picking
    the variable, regridding and reprojecting resample it.  The log
    record is not a step. *)
Definition stage_of (e : Event) : option Stage :=
  match e with
  | EvResolveParams | EvParseBbox _ => Some Parse
  | EvFromCrs _ _ | EvTransform _ _ | EvKeepCoords | EvBounds _ _ _ =>
      Some TransformBbox
  | EvSel _ | EvSqueeze | EvWriteCrs _ => Some SliceDataset
  | EvGetItem _ | EvReproject _ _ _ | EvLinspace _ _ _ | EvRegridder _ _
  | EvRegrid | EvDaWriteCrs _ | EvSetSpatialDims _ _ => Some Resample
  | EvMin | EvMax | EvScale _ _ => Some Normalize
  | EvGetCmap _ | EvFromArray => Some Colorize
  | EvSave _ => Some Encode
  | EvResponse _ => Some Respond
  | EvLogWarning => None
  end.

(** The steps of a trace in order, a run of operations of one step
    counted once. *)
Fixpoint stages (tr : list Event) : list Stage :=
  match tr with
  | [] => []
  | e :: tr' =>
      match stage_of e with
      | None => stages tr'
      | Some s =>
          match stages tr' with
          | s' :: rest => if Stage_eqb s s' then s' :: rest else s :: s' :: rest
          | [] => [s]
          end
      end
  end.

Fixpoint is_prefix (a b : list Stage) : bool :=
  match a, b with
  | [], _ => true
  | x :: a', y :: b' => Stage_eqb x y && is_prefix a' b'
  | _ :: _, [] => false
  end.

(** The order the specification gives. *)
Definition pipeline : list Stage :=
  [Parse; TransformBbox; SliceDataset; Resample; Normalize; Colorize; Encode; Respond].

(** The order of [get_image_tile]: the time slice is taken (line 99)
    before the bounding box of the tile is computed (line 100). *)
Definition tile_pipeline : list Stage :=
  [Parse; SliceDataset; TransformBbox; Resample; Normalize; Colorize; Encode; Respond].

Definition order_of (r : Request) : list Stage :=
  match r with
  | ReqImage _ => pipeline
  | ReqTile _ _ _ _ _ _ => tile_pipeline
  end.

(** What is selected from the dataset. *)
Definition selection_of (r : Request) (ix : Indexers) : Prop :=
  match r with
  | ReqImage raw =>
      exists x0 x1 y0 y1 d,
        q_datetime raw = Some d
        /\ ix = [("X", Slice x0 x1); ("Y", Slice y0 y1); ("T", Label d)]
  | ReqTile _ t _ _ _ _ => ix = [("T", Label t)]
  end.

(** The request gives bbox, width, height, parameter, datetime and crs. *)
Definition supplies_all_six (raw : RawQuery) : Prop :=
  q_bbox raw <> None /\ q_width raw <> None /\ q_height raw <> None
  /\ q_parameter raw <> None /\ q_datetime raw <> None /\ q_crs raw <> None.

(** The longest run of digits at the head of a string, and the rest. *)
Fixpoint digit_run (s : list ascii) : list ascii * list ascii :=
  match s with
  | c :: s' =>
      match digit_val c with
      | Some _ => let (ds, r) := digit_run s' in (c :: ds, r)
      | None => ([], s)
      end
  | [] => ([], [])
  end.

Definition nonempty {A : Type} (l : list A) : bool :=
  match l with [] => false | _ :: _ => true end.

(** A decimal number in the words of the specification: an optional
    sign, then digits with, optionally, a point and digits.  This is the
    specification's notion, to be set against what [float] accepts. *)
Definition decimal_number (s : string) : bool :=
  let (_, r) := sign (list_ascii_of_string s) in
  let (ip, r1) := digit_run r in
  match r1 with
  | [] => nonempty ip
  | c :: r2 =>
      if Ascii.eqb c "." then
        let (fp, r3) := digit_run r2 in
        negb (nonempty r3) && (nonempty ip || nonempty fp)
      else false
  end.




(** Four comma-separated pieces, each accepted by [float]. *)
Definition four_floats (s : string) : Prop :=
  exists a b c d fa fb fc fd,
    split "," s = [a; b; c; d]
    /\ float a = Some fa /\ float b = Some fb
    /\ float c = Some fc /\ float d = Some fd.

Definition all_cells {A : Type} (P : A -> Prop) (r : list (list A)) : Prop :=
  forall row v, In row r -> In v row -> P v.

Definition two_distinct (r : raster) : Prop :=
  exists v1 v2, In v1 (cells r) /\ In v2 (cells r) /\ ~ (v1 == v2)%Q.

Definition is_finite (f : pyfloat) : Prop :=
  match f with Finite _ => True | _ => False end.


(** [num] samples from [start], a constant step apart, the step being
    [(stop - start) / (num - 1)]. *)
Definition evenly_spaced (start stop : Q) (num : Z) (y : list Q) : Prop :=
  List.length y = Z.to_nat num
  /\ forall i, (i < Z.to_nat num)%nat ->
               (nth i y 0 == start + inject_Z (Z.of_nat i)
                                     * ((stop - start) / inject_Z (num - 1)))%Q.



(** How many times a character occurs in a string. *)
Fixpoint count_char (c : ascii) (s : string) : nat :=
  match s with
  | EmptyString => O
  | String a s' => ((if Ascii.eqb a c then 1 else 0) + count_char c s')%nat
  end.


(** The operation is not one of pyproj's. *)
Definition no_pyproj (ev : Event) : Prop :=
  match ev with
  | EvFromCrs _ _ | EvTransform _ _ => False
  | _ => True
  end.







(* ================================================================== *)
(** * The definitions on concrete inputs *)

Example split_ex1 : split "," "1,2,,3" = ["1"; "2"; ""; "3"].
Proof. reflexivity. Qed.
Example split_ex2 : split "," "" = [""].
Proof. reflexivity. Qed.
Example float_ex1 : float "-12.5" = Some (Finite (Qmake (-125) 10)).
Proof. reflexivity. Qed.
Example float_ex2 : float " 1_0e-1 " = Some (Finite (Qmake 10 10)).
Proof. reflexivity. Qed.
Example float_ex3 : float "-Infinity" = Some (Inf true).
Proof. reflexivity. Qed.
Example float_ex4 : float "nan" = Some NaN.
Proof. reflexivity. Qed.
Example float_ex5 : float "1__0" = None /\ float "." = None /\ float "" = None
                    /\ float "1e" = None /\ float "1 2" = None /\ float "_1" = None
                    /\ float "0x10" = None /\ float "+-1" = None.
Proof. repeat split; reflexivity. Qed.
Example float_ex6 : float "5." = Some (Finite (inject_Z 5)) /\ float ".5" = Some (Finite (Qmake 5 10)).
Proof. split; reflexivity. Qed.

Example parse_bbox_ex1 :
  parse_bbox "-10,20.5,30,4e1"
  = inr (Finite (inject_Z (-10)), Finite (Qmake 205 10),
         Finite (inject_Z 30), Finite (inject_Z 40)).
Proof. reflexivity. Qed.
Example parse_bbox_ex2 : parse_bbox "1,2,3" = inl ValueError.
Proof. reflexivity. Qed.
Example parse_bbox_ex3 : parse_bbox "1,2,3,4,5" = inl ValueError.
Proof. reflexivity. Qed.
Example parse_bbox_ex4 : parse_bbox "1,2,x,4" = inl ValueError.
Proof. reflexivity. Qed.

Example toy_image_run :
  value (serve Toy.libs (ReqImage Toy.query0) Toy.world0)
  = inr {| content := [Byte.x02; Byte.x03; Byte.x00; Byte.x55; Byte.xaa;
                       Byte.xff; Byte.x00; Byte.x55];
           media_type := "image/png" |}.
Proof. vm_compute. reflexivity. Qed.

Example toy_tile_run :
  value (serve Toy.libs (ReqTile "temp" "2022-01-01" 1 0 0 (Some 2)) Toy.world0)
  = inr {| content := [Byte.x02; Byte.x02; Byte.xcd; Byte.x00; Byte.x00; Byte.x33];
           media_type := "image/png" |}.
Proof. vm_compute. reflexivity. Qed.

(* ================================================================== *)
(** * Running a handler symbolically *)

Section Run.

Context {L : Libs}.

Lemma bind_value {A B : Type} (m : M L A) (k : A -> M L B) (w : World L) :
  value (bind L m k w)
  = match value (m w) with
    | inl e => inl e
    | inr a => value (k a (world (m w)))
    end.
Proof. unfold bind. destruct (value (m w)); reflexivity. Qed.

Lemma bind_trace {A B : Type} (m : M L A) (k : A -> M L B) (w : World L) :
  trace (bind L m k w)
  = match value (m w) with
    | inl e => trace (m w)
    | inr a => trace (m w) ++ trace (k a (world (m w)))
    end.
Proof. unfold bind. destruct (value (m w)); reflexivity. Qed.

Lemma bind_world {A B : Type} (m : M L A) (k : A -> M L B) (w : World L) :
  world (bind L m k w)
  = match value (m w) with
    | inl e => world (m w)
    | inr a => world (k a (world (m w)))
    end.
Proof. unfold bind. destruct (value (m w)); reflexivity. Qed.

End Run.

(** One step of a run: unfold the leading [bind] and split on the result
    of the operation it starts with. *)
Ltac run_simpl :=
  repeat (rewrite ?bind_value, ?bind_trace, ?bind_world; cbn [call tick ret logger_warning get_dataset value trace world app negb]).

Ltac split_result r :=
  lazymatch r with
  | match ?r' with inl _ => _ | inr _ => _ end => split_result r'
  | value _ => fail
  | _ => destruct r eqn:?
  end.

Ltac run_step :=
  match goal with
  | |- context [if ?b then _ else _] => destruct b eqn:?
  | |- context [match ?p with (_, _) => _ end] => destruct p
  | |- context [match ?r with inl _ => _ | inr _ => _ end] => split_result r
  end; run_simpl.

Ltac run_all := run_simpl; repeat run_step.

(* ================================================================== *)
(** * Facts about the array arithmetic *)

Lemma Qmin_cases (x y : Q) : Qmin x y = x \/ Qmin x y = y.
Proof.
  unfold Qmin, GenericMinMax.gmin. destruct (x ?= y)%Q; auto.
Qed.

Lemma Qmax_cases (x y : Q) : Qmax x y = x \/ Qmax x y = y.
Proof.
  unfold Qmax, GenericMinMax.gmax. destruct (x ?= y)%Q; auto.
Qed.

Lemma fold_min_spec (vs : list Q) :
  forall v, In (fold_left Qmin vs v) (v :: vs)
            /\ forall x, In x (v :: vs) -> (fold_left Qmin vs v <= x)%Q.
Proof.
  induction vs as [|a vs IH]; intros v; simpl.
  - split; [auto|]. intros x [<-|[]]. apply Qle_refl.
  - destruct (IH (Qmin v a)) as [Hin Hle]. split.
    + destruct Hin as [Heq|Hin]; [|auto].
      rewrite <- Heq. destruct (Qmin_cases v a) as [-> | ->]; auto.
    + intros x [<-|[<-|Hx]].
      * eapply Qle_trans; [apply Hle; left; reflexivity | apply Q.le_min_l].
      * eapply Qle_trans; [apply Hle; left; reflexivity | apply Q.le_min_r].
      * apply Hle. right. exact Hx.
Qed.

Lemma fold_max_spec (vs : list Q) :
  forall v, In (fold_left Qmax vs v) (v :: vs)
            /\ forall x, In x (v :: vs) -> (x <= fold_left Qmax vs v)%Q.
Proof.
  induction vs as [|a vs IH]; intros v; simpl.
  - split; [auto|]. intros x [<-|[]]. apply Qle_refl.
  - destruct (IH (Qmax v a)) as [Hin Hle]. split.
    + destruct Hin as [Heq|Hin]; [|auto].
      rewrite <- Heq. destruct (Qmax_cases v a) as [-> | ->]; auto.
    + intros x [<-|[<-|Hx]].
      * eapply Qle_trans; [apply Q.le_max_l | apply Hle; left; reflexivity].
      * eapply Qle_trans; [apply Q.le_max_r | apply Hle; left; reflexivity].
      * apply Hle. right. exact Hx.
Qed.

Lemma amin_spec (r : raster) (lo : Q) :
  Np.amin r = inr lo -> is_minimum lo r.
Proof.
  unfold Np.amin, Np.reduce, is_minimum, cells.
  destruct (List.concat r) as [|v vs]; [discriminate|].
  intros H. injection H as <-. apply fold_min_spec.
Qed.

Lemma amax_spec (r : raster) (hi : Q) :
  Np.amax r = inr hi -> is_maximum hi r.
Proof.
  unfold Np.amax, Np.reduce, is_maximum, cells.
  destruct (List.concat r) as [|v vs]; [discriminate|].
  intros H. injection H as <-. apply fold_max_spec.
Qed.

(** The divisor of the scaling is zero exactly on constant data. *)
Lemma divisor_zero_iff (r : raster) (lo hi : Q) :
  is_minimum lo r -> is_maximum hi r ->
  ((hi - lo == 0)%Q <-> constant r).
Proof.
  intros [Hlo Hmin] [Hhi Hmax]. split.
  - intros Hz v1 v2 H1 H2.
    pose proof (Hmin v1 H1). pose proof (Hmin v2 H2).
    pose proof (Hmax v1 H1). pose proof (Hmax v2 H2). lra.
  - intros Hc. pose proof (Hc hi lo Hhi Hlo). lra.
Qed.

Lemma true_divide_finite (x d : Q) :
  ~ (d == 0)%Q -> Np.true_divide x d = Finite (x / d).
Proof.
  intros Hd. unfold Np.true_divide.
  destruct (Qeq_bool d 0) eqn:E; [|reflexivity].
  apply Qeq_bool_iff in E. contradiction.
Qed.



(* ================================================================== *)
(** * What a completed run has done *)

Lemma get_image_ok (L : Libs) (q : ImageQuery) (ds : Dataset L) (w : World L)
    (resp : Response) :
  value (get_image L q ds w) = inr resp ->
  exists (da rd : DataArray L) (lo hi : Q) (cm : Colormap) (pre : list Event),
    da_rio_reproject L da (crs q) (Some (width q, height q)) (Some bilinear) = inr rd
    /\ Np.amin (values L rd) = inr lo
    /\ Np.amax (values L rd) = inr hi
    /\ get_cmap L (cmap_used q) = inr cm
    /\ Image_save L (colorize cm (Np.scale lo hi (values L rd))) "PNG"
       = inr (content resp)
    /\ media_type resp = "image/png"
    /\ trace (get_image L q ds w)
       = pre ++ [EvReproject (crs q) (Some (width q, height q)) (Some bilinear);
                 EvMin; EvMax; EvScale lo hi; EvGetCmap (cmap_used q);
                 EvFromArray; EvSave "PNG"; EvResponse "image/png"].
Proof.
  unfold get_image, cmap_used. run_all; try discriminate.
  all: intros H; injection H as <-.
  all: unfold truthy in *; destruct (cmap q) as [n|];
       [destruct (String.eqb n "") eqn:En|]; simpl in *; try discriminate.
  all: match goal with
       | H1 : da_rio_reproject _ ?da _ _ _ = inr ?rd,
         H2 : Np.amin _ = inr ?lo, H3 : Np.amax _ = inr ?hi,
         H4 : get_cmap _ _ = inr ?cm |- _ =>
           exists da, rd, lo, hi, cm
       end.
  all: eexists; repeat split; try eassumption.
  all: match goal with
       | |- ?l = _ ++ ?suffix =>
           let n := eval cbv in (List.length l - List.length suffix)%nat in
           instantiate (1 := firstn n l); reflexivity
       end.
Qed.

Lemma get_image_tile_ok (L : Libs) (p t : string) (z x y size : Z)
    (ds : Dataset L) (w : World L) (resp : Response) :
  value (get_image_tile L p t z x y size ds w) = inr resp ->
  exists (b : LngLatBbox) (g : GridOut) (rd : DataArray L) (cm : Colormap)
         (pre : list Event),
    bounds L x y z = inr b
    /\ Np.linspace (south b) (north b) size = inr (lat g)
    /\ Np.linspace (west b) (east b) size = inr (lon g)
    /\ get_cmap L "rainbow" = inr cm
    /\ Image_save L
         (colorize cm (Np.scale (inject_Z 0) (inject_Z 5) (values L rd))) "PNG"
       = inr (content resp)
    /\ media_type resp = "image/png"
    /\ trace (get_image_tile L p t z x y size ds w)
       = pre ++ [EvSel [("T", Label t)]; EvSqueeze; EvBounds x y z; EvLogWarning;
                 EvLinspace (south b) (north b) size;
                 EvLinspace (west b) (east b) size;
                 EvRegridder g "bilinear"; EvGetItem p; EvRegrid;
                 EvDaWriteCrs 4326; EvSetSpatialDims "lon" "lat";
                 EvReproject "EPSG:3857" None None;
                 EvScale (inject_Z 0) (inject_Z 5); EvGetCmap "rainbow";
                 EvFromArray; EvSave "PNG"; EvResponse "image/png"].
Proof.
  unfold get_image_tile. run_all; try discriminate.
  all: intros H; injection H as <-.
  all: match goal with
       | H1 : bounds _ _ _ _ = inr ?b,
         H2 : Np.linspace (south _) _ _ = inr ?la,
         H3 : Np.linspace (west _) _ _ = inr ?lo,
         H4 : da_rio_reproject _ _ _ _ _ = inr ?rd,
         H5 : get_cmap _ _ = inr ?cm |- _ =>
           exists b, {| lat := la; lon := lo |}, rd, cm
       end.
  all: eexists; repeat split; try eassumption.
  all: match goal with
       | |- ?l = _ ++ ?suffix =>
           let n := eval cbv in (List.length l - List.length suffix)%nat in
           instantiate (1 := firstn n l); reflexivity
       end.
Qed.

Lemma serve_image_value (L : Libs) (raw : RawQuery) (w : World L) :
  value (serve L (ReqImage raw) w)
  = match resolve_image_query raw with
    | inl e => inl e
    | inr q => value (get_image L q (w_dataset w) w)
    end.
Proof. unfold serve. run_simpl. destruct (resolve_image_query raw); reflexivity. Qed.

Lemma serve_image_trace (L : Libs) (raw : RawQuery) (w : World L) :
  trace (serve L (ReqImage raw) w)
  = EvResolveParams ::
    match resolve_image_query raw with
    | inl e => []
    | inr q => trace (get_image L q (w_dataset w) w)
    end.
Proof. unfold serve. run_simpl. destruct (resolve_image_query raw); reflexivity. Qed.

Lemma serve_tile_value (L : Libs) (p t : string) (z x y : Z) (size : option Z)
    (w : World L) :
  value (serve L (ReqTile p t z x y size) w)
  = value (get_image_tile L p t z x y (size_or_default size) (w_dataset w) w).
Proof. unfold serve. run_simpl. reflexivity. Qed.

Lemma serve_tile_trace (L : Libs) (p t : string) (z x y : Z) (size : option Z)
    (w : World L) :
  trace (serve L (ReqTile p t z x y size) w)
  = EvResolveParams
    :: trace (get_image_tile L p t z x y (size_or_default size) (w_dataset w) w).
Proof. unfold serve. run_simpl. reflexivity. Qed.

(* ================================================================== *)
(** * C1: the two routes and their responses *)

(** C1, as stated, fails: not every request gets a PNG response.  A
    request to ['/'] whose [bbox] has three numbers makes line 52 raise
    [ValueError], and no [Response] is built. *)
Lemma C1_not_every_request_gets_png :
  ~ (forall (L : Libs) (r : Request) (w : World L),
        exists resp, value (serve L r w) = inr resp
                     /\ media_type resp = "image/png").
Proof.
  intros H.
  destruct (H Toy.libs
              (ReqImage {| q_bbox := Some "1,2,3"; q_width := Some 3;
                           q_height := Some 2; q_parameter := Some "temp";
                           q_datetime := Some "2022-01-01";
                           q_crs := Some "EPSG:4326"; q_cmap := None |})
              Toy.world0) as [resp [Hv _]].
  vm_compute in Hv. discriminate Hv.
Qed.

(** C1 (amended): [image_router] holds exactly two routes, both GET: ['/']
    served by [get_image] (bounding box) and
    ['/tile/{parameter}/{t}/{z}/{x}/{y}'] served by [get_image_tile]; and
    whenever a request is answered, the response has media type
    [image/png] and its body is what saving the rendered image in PNG
    format returned. *)
Theorem C1_two_get_routes_png_response :
  map route_method image_router = [GET; GET]
  /\ map route_path image_router = ["/"; "/tile/{parameter}/{t}/{z}/{x}/{y}"]
  /\ map route_endpoint image_router = [ep_get_image; ep_get_image_tile]
  /\ forall (L : Libs) (r : Request) (w : World L) (resp : Response),
       value (serve L r w) = inr resp ->
       media_type resp = "image/png"
       /\ exists im, rendered L r im
                     /\ Image_save L im "PNG" = inr (content resp).
Proof.
  repeat split; try reflexivity.
  - destruct r as [raw|p t z x y size].
    + rewrite serve_image_value in H.
      destruct (resolve_image_query raw) as [e|q]; [discriminate|].
      apply get_image_ok in H. destruct H as (_ & _ & _ & _ & _ & _ & _ & _ & _ & _ & _ & Hm & _).
      exact Hm.
    + rewrite serve_tile_value in H.
      apply get_image_tile_ok in H.
      destruct H as (_ & _ & _ & _ & _ & _ & _ & _ & _ & _ & Hm & _). exact Hm.
  - destruct r as [raw|p t z x y size].
    + rewrite serve_image_value in H.
      destruct (resolve_image_query raw) as [e|q] eqn:Hq; [discriminate|].
      apply get_image_ok in H.
      destruct H as (da & rd & lo & hi & cm & pre & H1 & H2 & H3 & H4 & H5 & _).
      eexists. split; [|exact H5]. simpl.
      exists q, da, rd, lo, hi, cm. rewrite Hq. repeat split; assumption.
    + rewrite serve_tile_value in H.
      apply get_image_tile_ok in H.
      destruct H as (b & g & rd & cm & pre & _ & _ & _ & H4 & H5 & _).
      eexists. split; [|exact H5]. simpl. exists rd, cm. split; [assumption|reflexivity].
Qed.

(** An answered request: the bounding-box request [Toy.query0]. *)
Lemma C1_witness :
  exists resp,
    value (serve Toy.libs (ReqImage Toy.query0) Toy.world0) = inr resp
    /\ media_type resp = "image/png"
    /\ exists im, rendered Toy.libs (ReqImage Toy.query0) im
                  /\ Image_save Toy.libs im "PNG" = inr (content resp).
Proof.
  eexists. split; [vm_compute; reflexivity|].
  apply (proj2 (proj2 (proj2 C1_two_get_routes_png_response))
           Toy.libs (ReqImage Toy.query0) Toy.world0).
  vm_compute. reflexivity.
Defined.

(* ================================================================== *)
(** * C2: the order of the pipeline *)

(** C2, as stated, fails for the tile handler: on a tile request that is
    answered, the dataset is sliced before the bounding box is derived. *)
Lemma C2_tile_slices_before_bbox :
  ~ (forall (L : Libs) (r : Request) (w : World L) (resp : Response),
        value (serve L r w) = inr resp ->
        stages (trace (serve L r w)) = pipeline).
Proof.
  intros H.
  specialize (H Toy.libs (ReqTile "temp" "2022-01-01" 1 0 0 (Some 2)) Toy.world0 _
                toy_tile_run).
  vm_compute in H. discriminate H.
Qed.

Ltac in_trace H :=
  simpl in H;
  repeat (destruct H as [H|H]; try discriminate H);
  try contradiction.

Lemma resolve_datetime (raw : RawQuery) (q : ImageQuery) :
  resolve_image_query raw = inr q -> q_datetime raw = Some (datetime q).
Proof.
  unfold resolve_image_query, image_query, ImageQuery_init, required.
  destruct (q_bbox raw), (q_width raw), (q_height raw), (q_parameter raw),
    (q_datetime raw), (q_crs raw); try discriminate.
  intros H. injection H as <-. reflexivity.
Qed.

Lemma selection_in_trace (L : Libs) (r : Request) (w : World L) (ix : Indexers) :
  In (EvSel ix) (trace (serve L r w)) -> selection_of r ix.
Proof.
  destruct r as [raw|p t z x y size].
  - rewrite serve_image_trace.
    destruct (resolve_image_query raw) as [e|q] eqn:Hq.
    + intros H. in_trace H.
    + apply resolve_datetime in Hq. revert Hq.
      unfold get_image. run_all.
      all: intros Hq H; in_trace H.
      all: injection H as <-; simpl; eauto 10.
  - rewrite serve_tile_trace. unfold get_image_tile. run_all.
    all: intros H; in_trace H.
    all: injection H as <-; reflexivity.
Qed.

Lemma steps_of_run (L : Libs) (r : Request) (w : World L) :
  is_prefix (stages (trace (serve L r w))) (order_of r) = true
  /\ (stages (trace (serve L r w)) = order_of r
      <-> exists resp, value (serve L r w) = inr resp).
Proof.
  destruct r as [raw|p t z x y size].
  - rewrite serve_image_trace, serve_image_value.
    destruct (resolve_image_query raw) as [e|q].
    + split; [reflexivity|]. split; [discriminate|intros [? ?]; discriminate].
    + unfold get_image. run_all; simpl.
      all: split; [reflexivity|].
      all: split; [intros; try discriminate; eexists; reflexivity
                  |intros [? ?]; try discriminate; reflexivity].
  - rewrite serve_tile_trace, serve_tile_value.
    unfold get_image_tile. run_all; simpl.
    all: split; [reflexivity|].
    all: split; [intros; try discriminate; eexists; reflexivity
                |intros [? ?]; try discriminate; reflexivity].
Qed.

(** C2 (amended): every run of the bounding-box endpoint goes through
    parse, transform bounding box, slice, resample, normalize, colorize,
    encode, respond in this order, and every run of the tile endpoint
    through parse, slice (time only), derive bounding box, resample,
    normalize, colorize, encode, respond in this order.  A run that
    raises stops at some step of its order; a run is answered exactly when
    it went through all the steps.  The bounding-box endpoint selects the
    X and Y extents and the time, the tile endpoint the time alone. *)
Theorem C2_steps_in_order :
  forall (L : Libs) (r : Request) (w : World L),
    is_prefix (stages (trace (serve L r w))) (order_of r) = true
    /\ (stages (trace (serve L r w)) = order_of r
        <-> exists resp, value (serve L r w) = inr resp)
    /\ (forall ix, In (EvSel ix) (trace (serve L r w)) -> selection_of r ix).
Proof.
  intros L r w.
  destruct (steps_of_run L r w) as [Hp Hs].
  split; [exact Hp|]. split; [exact Hs|].
  intros ix. apply selection_in_trace.
Qed.

(* ================================================================== *)
(** * C4: the request of the bounding-box endpoint *)

(** C4: a request to ['/'] is the tuple (bbox, width, height, parameter,
    datetime, crs, cmap).  When the first six are supplied, request
    construction yields the [ImageQuery] with exactly these values,
    whether [cmap] is given or not; when one of the six is missing,
    construction raises and the run ends there, before any operation of
    the handler body. *)
Theorem C4_six_required_cmap_optional :
  (forall b w h p d c cm,
      resolve_image_query
        {| q_bbox := Some b; q_width := Some w; q_height := Some h;
           q_parameter := Some p; q_datetime := Some d; q_crs := Some c;
           q_cmap := cm |}
      = inr {| bbox := b; width := w; height := h; parameter := p;
               datetime := d; crs := c; cmap := cm |})
  /\ (forall raw, (exists q, resolve_image_query raw = inr q) <-> supplies_all_six raw)
  /\ (forall (L : Libs) raw (w : World L),
        ~ supplies_all_six raw ->
        exists e, value (serve L (ReqImage raw) w) = inl e
                  /\ trace (serve L (ReqImage raw) w) = [EvResolveParams]).
Proof.
  assert (Hiff : forall raw,
             (exists q, resolve_image_query raw = inr q) <-> supplies_all_six raw).
  { intros raw. unfold supplies_all_six, resolve_image_query, image_query,
      ImageQuery_init, required.
    destruct (q_bbox raw), (q_width raw), (q_height raw), (q_parameter raw),
      (q_datetime raw), (q_crs raw); split.
    all: try (intros [q Hq]; discriminate Hq).
    all: try (intros _; repeat split; discriminate).
    all: try (intros _; eexists; reflexivity).
    all: intros (H1 & H2 & H3 & H4 & H5 & H6); congruence. }
  split; [reflexivity|]. split; [exact Hiff|].
  intros L raw w Hn.
  rewrite serve_image_value, serve_image_trace.
  destruct (resolve_image_query raw) as [e|q] eqn:Hq.
  - exists e. split; reflexivity.
  - exfalso. apply Hn. apply Hiff. exists q. exact Hq.
Qed.

(** A request without [crs] is refused before the handler body. *)
Lemma C4_witness :
  exists e,
    value (serve Toy.libs
             (ReqImage {| q_bbox := Some "0,0,1,1"; q_width := Some 4;
                          q_height := Some 4; q_parameter := Some "temp";
                          q_datetime := Some "2022-01-01"; q_crs := None;
                          q_cmap := Some "gray" |}) Toy.world0) = inl e
    /\ trace (serve Toy.libs
                (ReqImage {| q_bbox := Some "0,0,1,1"; q_width := Some 4;
                             q_height := Some 4; q_parameter := Some "temp";
                             q_datetime := Some "2022-01-01"; q_crs := None;
                             q_cmap := Some "gray" |}) Toy.world0)
       = [EvResolveParams].
Proof.
  apply (proj2 (proj2 C4_six_required_cmap_optional) Toy.libs).
  unfold supplies_all_six. simpl. intros (_ & _ & _ & _ & _ & H). apply H. reflexivity.
Defined.

(* ================================================================== *)
(** * C9: parsing the bounding box *)

Example decimal_number_ex :
  decimal_number "-12.5" = true /\ decimal_number "7" = true
  /\ decimal_number "nan" = false /\ decimal_number "inf" = false
  /\ decimal_number "" = false /\ decimal_number "1,2" = false.
Proof. repeat split; reflexivity. Qed.

Lemma floats_length (l : list string) :
  forall fs, floats l = inr fs -> List.length fs = List.length l.
Proof.
  induction l as [|p l IH]; simpl; intros fs H.
  - injection H as <-. reflexivity.
  - destruct (float p); [|discriminate].
    destruct (floats l) as [e|fs']; [discriminate|].
    injection H as <-. simpl. f_equal. apply IH. reflexivity.
Qed.

Lemma floats_error (l : list string) (e : Exn) :
  floats l = inl e -> e = ValueError.
Proof.
  induction l as [|p l IH]; simpl; intros H; [discriminate|].
  destruct (float p); [|injection H as <-; reflexivity].
  destruct (floats l); [|discriminate].
  injection H as <-. apply IH. reflexivity.
Qed.

Lemma parse_bbox_error (s : string) (e : Exn) :
  parse_bbox s = inl e -> e = ValueError.
Proof.
  unfold parse_bbox. destruct (floats (split "," s)) as [e'|fs] eqn:Hf.
  - intros H. injection H as <-. eapply floats_error. exact Hf.
  - destruct fs as [|? [|? [|? [|? [|? ?]]]]]; intros H; try discriminate;
      injection H as <-; reflexivity.
Qed.

Lemma parse_bbox_ok (s : string) (fa fb fc fd : pyfloat) :
  parse_bbox s = inr (fa, fb, fc, fd)
  <-> exists a b c d,
        split "," s = [a; b; c; d]
        /\ float a = Some fa /\ float b = Some fb
        /\ float c = Some fc /\ float d = Some fd.
Proof.
  unfold parse_bbox. split.
  - destruct (floats (split "," s)) as [e'|fs] eqn:Hf; [discriminate|].
    pose proof (floats_length _ _ Hf) as Hlen.
    destruct fs as [|? [|? [|? [|? [|? ?]]]]]; try discriminate.
    intros H. injection H as -> -> -> ->.
    destruct (split "," s) as [|a [|b [|c [|d [|? ?]]]]];
      simpl in Hlen; try discriminate Hlen.
    simpl in Hf.
    destruct (float a) eqn:Ea, (float b) eqn:Eb, (float c) eqn:Ec,
      (float d) eqn:Ed; try discriminate.
    injection Hf as -> -> -> ->. exists a, b, c, d. auto.
  - intros (a & b & c & d & Hs & Ha & Hb & Hc & Hd).
    rewrite Hs. simpl. rewrite Ha, Hb, Hc, Hd. reflexivity.
Qed.

Lemma parse_bbox_fails_iff (s : string) :
  parse_bbox s = inl ValueError <-> ~ four_floats s.
Proof.
  split.
  - intros H (a & b & c & d & fa & fb & fc & fd & Hx).
    assert (parse_bbox s = inr (fa, fb, fc, fd)) as H'
        by (apply parse_bbox_ok; exists a, b, c, d; exact Hx).
    congruence.
  - intros Hn. destruct (parse_bbox s) as [e|[[[fa fb] fc] fd]] eqn:Hp.
    + f_equal. eapply parse_bbox_error. exact Hp.
    + exfalso. apply Hn. apply parse_bbox_ok in Hp.
      destruct Hp as (a & b & c & d & Hx).
      exists a, b, c, d, fa, fb, fc, fd. exact Hx.
Qed.


(** An error before the dataset is touched can also come from the
    coordinate transformer: here the bounding box is well formed. *)
Example bad_crs_raises_before_sel :
  let q := {| bbox := "0,0,1,1"; width := 2; height := 2;
              parameter := "temp"; datetime := "2022-01-01";
              crs := "bogus"; cmap := None |} in
  value (get_image Toy.libs q Toy.dataset0 Toy.world0)
  = inl (LibraryError "pyproj")
  /\ trace (get_image Toy.libs q Toy.dataset0 Toy.world0)
     = [EvParseBbox "0,0,1,1"; EvFromCrs "bogus" "EPSG:4326"].
Proof. split; vm_compute; reflexivity. Qed.


(* ================================================================== *)
(** * C3: the size of the image of the bounding-box endpoint *)

Lemma shape_map_map {A B : Type} (f : A -> B) (r : list (list A)) :
  Np.shape (map (map f) r) = Np.shape r.
Proof.
  unfold Np.shape. destruct r as [|row r]; simpl; [reflexivity|].
  rewrite !length_map. reflexivity.
Qed.

Lemma colorize_shape (cm : Colormap) (lo hi : Q) (r : raster) :
  Image_height (colorize cm (Np.scale lo hi r)) = fst (Np.shape r)
  /\ Image_width (colorize cm (Np.scale lo hi r)) = snd (Np.shape r).
Proof.
  unfold Image_height, Image_width, colorize, Image_fromarray, Np.scale.
  cbn [rows]. rewrite !shape_map_map. split; reflexivity.
Qed.

(** X1: with [shape=(query.width, query.height)] at line 71 and rioxarray
    reading [shape] as (rows, columns), the image of a completed run has
    [query.width] rows and [query.height] columns. *)
Lemma get_image_dims (L : Libs) :
  reproject_shape_law L ->
  forall (q : ImageQuery) (ds : Dataset L) (w : World L) (resp : Response),
    value (get_image L q ds w) = inr resp ->
    exists im,
      Image_save L im "PNG" = inr (content resp)
      /\ Image_height im = Z.to_nat (width q)
      /\ Image_width im = Z.to_nat (height q).
Proof.
  intros Hlaw q ds w resp H.
  apply get_image_ok in H.
  destruct H as (da & rd & lo & hi & cm & pre & Hr & _ & _ & _ & Hs & _).
  apply Hlaw in Hr. destruct Hr as [Hshape _].
  eexists. split; [exact Hs|].
  destruct (colorize_shape cm lo hi (values L rd)) as [-> ->].
  rewrite Hshape. split; reflexivity.
Qed.

Lemma toy_reproject_shape_law : reproject_shape_law Toy.libs.
Proof.
  intros da dst h w rs da' H. cbn in H. unfold Toy.reproject in H.
  destruct ((h <=? 0) || (w <=? 0)) eqn:E; [discriminate|].
  injection H as <-.
  apply Bool.orb_false_iff in E. destruct E as [Eh Ew].
  apply Z.leb_gt in Eh. apply Z.leb_gt in Ew.
  cbn [values Toy.libs]. unfold Toy.resample, Np.rectangular, Np.shape.
  destruct (Z.to_nat h) as [|n] eqn:En; [lia|].
  cbn [seq map List.length fst snd].
  rewrite !length_map, !length_seq. split; [reflexivity|].
  intros row [<-|Hin].
  - rewrite length_map, length_seq. reflexivity.
  - apply in_map_iff in Hin. destruct Hin as (i & <- & _).
    rewrite length_map, length_seq. reflexivity.
Qed.

(** C3 at a request with [width=3] and [height=2]: the run is answered,
    and the image that was encoded is 2 pixels wide and 3 pixels tall, the
    two parameters exchanged. *)
Theorem C3_width_and_height_exchanged :
  q_width Toy.query0 = Some 3 /\ q_height Toy.query0 = Some 2
  /\ exists resp im,
       value (serve Toy.libs (ReqImage Toy.query0) Toy.world0) = inr resp
       /\ rendered Toy.libs (ReqImage Toy.query0) im
       /\ Image_save Toy.libs im "PNG" = inr (content resp)
       /\ Image_width im = 2%nat
       /\ Image_height im = 3%nat.
Proof.
  split; [reflexivity|]. split; [reflexivity|].
  pose proof toy_image_run as Hrun.
  rewrite serve_image_value in Hrun.
  destruct (resolve_image_query Toy.query0) as [e|q] eqn:Hq; [discriminate|].
  assert (Hq' : q = {| bbox := "0,0,10,10"; width := 3; height := 2;
                       parameter := "temp"; datetime := "2022-01-01";
                       crs := "EPSG:4326"; cmap := None |})
    by (vm_compute in Hq; congruence).
  pose proof (get_image_ok _ _ _ _ _ Hrun)
    as (da & rd & lo & hi & cm & pre & H1 & H2 & H3 & H4 & H5 & _).
  eexists. exists (colorize cm (Np.scale lo hi (values Toy.libs rd))).
  split; [rewrite serve_image_value, Hq; exact Hrun|].
  split; [cbn [rendered]; exists q, da, rd, lo, hi, cm; rewrite Hq; auto 10|].
  split; [exact H5|].
  destruct (colorize_shape cm lo hi (values Toy.libs rd)) as [-> ->].
  destruct (toy_reproject_shape_law _ _ _ _ _ _ H1) as [-> _].
  rewrite Hq'. split; reflexivity.
Qed.

(* ================================================================== *)
(** * C5 and C10: the autoscaling of the bounding-box endpoint *)


Lemma two_distinct_not_constant (r : raster) :
  two_distinct r -> ~ constant r.
Proof.
  intros (v1 & v2 & H1 & H2 & Hne) Hc. apply Hne. apply Hc; assumption.
Qed.

Lemma in_cells {A : Type} (r : list (list A)) (row : list A) (v : A) :
  In row r -> In v row -> In v (List.concat r).
Proof.
  intros Hr Hv. apply in_concat. exists row. split; assumption.
Qed.

(** The run got as far as the scaling expression of line 81. *)
Lemma get_image_scale_reached (L : Libs) (q : ImageQuery) (ds : Dataset L)
    (w : World L) (lo hi : Q) :
  In (EvScale lo hi) (trace (get_image L q ds w)) ->
  exists da rd,
    da_rio_reproject L da (crs q) (Some (width q, height q)) (Some bilinear) = inr rd
    /\ Np.amin (values L rd) = inr lo
    /\ Np.amax (values L rd) = inr hi
    /\ In (EvGetCmap (cmap_used q)) (trace (get_image L q ds w)).
Proof.
  unfold get_image, cmap_used. run_all.
  all: intros H; in_trace H.
  all: injection H as <- <-.
  all: unfold truthy in *; destruct (cmap q) as [n|];
       [destruct (String.eqb n "") eqn:En|]; simpl in *; try discriminate.
  all: do 2 eexists; repeat split; try eassumption; tauto.
Qed.



Lemma scaled_cell (lo hi : Q) (r : raster) (row : list pyfloat) (f : pyfloat) :
  In row (Np.scale lo hi r) -> In f row ->
  exists v, In v (cells r) /\ f = Np.true_divide (v - lo) (hi - lo).
Proof.
  unfold Np.scale. intros Hrow Hf.
  apply in_map_iff in Hrow. destruct Hrow as (row0 & <- & Hrow0).
  apply in_map_iff in Hf. destruct Hf as (v & <- & Hv).
  exists v. split; [|reflexivity]. eapply in_cells; eassumption.
Qed.

(** C10: the divisor [max_value - min_value] of line 81 comes from the
    resampled data and nothing guards the division: the run goes on to
    the colour map whatever the divisor is.  The divisor is zero exactly
    when the resampled data is constant; with two distinct values it is
    not zero and every scaled cell is a finite number; on constant data
    every scaled cell is the NaN of [0/0]. *)
Theorem C10_divisor_zero_only_on_constant_data :
  forall (L : Libs) (q : ImageQuery) (ds : Dataset L) (w : World L) (lo hi : Q),
    In (EvScale lo hi) (trace (get_image L q ds w)) ->
    exists rd : DataArray L,
      (exists da, da_rio_reproject L da (crs q) (Some (width q, height q))
                    (Some bilinear) = inr rd)
      /\ Np.amin (values L rd) = inr lo
      /\ Np.amax (values L rd) = inr hi
      /\ In (EvGetCmap (cmap_used q)) (trace (get_image L q ds w))
      /\ ((hi - lo == 0)%Q <-> constant (values L rd))
      /\ (two_distinct (values L rd) ->
          ~ (hi - lo == 0)%Q
          /\ all_cells is_finite (Np.scale lo hi (values L rd)))
      /\ (constant (values L rd) ->
          all_cells (fun f => f = NaN) (Np.scale lo hi (values L rd))).
Proof.
  intros L q ds w lo hi H.
  destruct (get_image_scale_reached L q ds w lo hi H)
    as (da & rd & H1 & H2 & H3 & H4).
  exists rd.
  pose proof (amin_spec _ _ H2) as Hlo. pose proof (amax_spec _ _ H3) as Hhi.
  pose proof (divisor_zero_iff _ _ _ Hlo Hhi) as Hiff.
  split; [exists da; exact H1|].
  split; [exact H2|]. split; [exact H3|]. split; [exact H4|].
  split; [exact Hiff|]. split.
  - intros Htwo.
    assert (Hnz : ~ (hi - lo == 0)%Q).
    { intros Hz. apply (two_distinct_not_constant _ Htwo). apply Hiff. exact Hz. }
    split; [exact Hnz|].
    intros row f Hrow Hf.
    destruct (scaled_cell _ _ _ _ _ Hrow Hf) as (v & _ & ->).
    rewrite true_divide_finite by exact Hnz. exact I.
  - intros Hc row f Hrow Hf.
    destruct (scaled_cell _ _ _ _ _ Hrow Hf) as (v & Hv & ->).
    unfold Np.true_divide.
    assert (Hz : (hi - lo == 0)%Q) by (apply Hiff; exact Hc).
    assert (Hv0 : (v - lo == 0)%Q).
    { destruct Hlo as [Hl _]. pose proof (Hc v lo Hv Hl). lra. }
    apply Qeq_bool_iff in Hz. apply Qeq_bool_iff in Hv0.
    rewrite Hz, Hv0. reflexivity.
Qed.

(** The run of [Toy.query0] reaches the scaling with minimum 1 and
    maximum 4. *)
Lemma C10_witness :
  exists rd : DataArray Toy.libs,
    (exists da, da_rio_reproject Toy.libs da "EPSG:4326" (Some (3, 2))
                  (Some bilinear) = inr rd)
    /\ Np.amin (values Toy.libs rd) = inr 1%Q
    /\ Np.amax (values Toy.libs rd) = inr 4%Q
    /\ In (EvGetCmap "rainbow")
          (trace (get_image Toy.libs
                    {| bbox := "0,0,10,10"; width := 3; height := 2;
                       parameter := "temp"; datetime := "2022-01-01";
                       crs := "EPSG:4326"; cmap := None |}
                    Toy.dataset0 Toy.world0))
    /\ ((4 - 1 == 0)%Q <-> constant (values Toy.libs rd))
    /\ (two_distinct (values Toy.libs rd) ->
        ~ (4 - 1 == 0)%Q
        /\ all_cells is_finite (Np.scale 1 4 (values Toy.libs rd)))
    /\ (constant (values Toy.libs rd) ->
        all_cells (fun f => f = NaN) (Np.scale 1 4 (values Toy.libs rd))).
Proof.
  apply (C10_divisor_zero_only_on_constant_data Toy.libs
           {| bbox := "0,0,10,10"; width := 3; height := 2;
              parameter := "temp"; datetime := "2022-01-01";
              crs := "EPSG:4326"; cmap := None |}
           Toy.dataset0 Toy.world0 1%Q 4%Q).
  vm_compute. repeat first [left; reflexivity | right].
Defined.

(** Constant data does not stop the run: the image is built from NaN
    cells and encoded. *)
Example constant_data_is_rendered :
  value (get_image Toy.libs
           {| bbox := "0,0,10,10"; width := 2; height := 2;
              parameter := "flat"; datetime := "2022-01-01";
              crs := "EPSG:4326"; cmap := None |}
           {| Toy.ds_crs := None;
              Toy.ds_vars := [("flat", [[7%Q; 7%Q]; [7%Q; 7%Q]])] |}
           Toy.world0)
  = inr {| content := [Byte.x02; Byte.x02; Byte.x00; Byte.x00; Byte.x00; Byte.x00];
           media_type := "image/png" |}.
Proof. vm_compute. reflexivity. Qed.

(* ================================================================== *)
(** * C6: the injected dataset is left as it was *)

Section Frame.

Context {L : Libs}.







End Frame.






(* ================================================================== *)
(** * C7: the output grid of the tile endpoint *)

Lemma removelast_length (y : list Q) :
  List.length (removelast y) = pred (List.length y).
Proof.
  rewrite removelast_firstn_len, length_firstn. lia.
Qed.

Lemma set_last_length (y : list Q) (v : Q) :
  y <> [] -> List.length (Np.set_last y v) = List.length y.
Proof.
  intros Hy. unfold Np.set_last.
  rewrite length_app, removelast_length. cbn.
  destruct y; [contradiction|simpl; lia].
Qed.

Lemma set_last_nth (y : list Q) (v : Q) (i : nat) :
  (S i < List.length y)%nat -> nth i (Np.set_last y v) 0%Q = nth i y 0%Q.
Proof.
  intros Hi. unfold Np.set_last.
  pose proof (removelast_length y) as Hlen.
  rewrite app_nth1 by lia.
  rewrite removelast_firstn_len, nth_firstn.
  destruct (Nat.ltb_spec i (pred (List.length y))); [reflexivity|lia].
Qed.

Lemma set_last_last (y : list Q) (v : Q) : last (Np.set_last y v) 0%Q = v.
Proof. unfold Np.set_last. apply last_last. Qed.

Lemma set_last_nth_last (y : list Q) (v : Q) :
  nth (pred (List.length y)) (Np.set_last y v) 0%Q = v.
Proof.
  unfold Np.set_last. pose proof (removelast_length y) as Hlen.
  rewrite app_nth2 by lia. rewrite Hlen, Nat.sub_diag. reflexivity.
Qed.

Lemma linspace_negative (start stop : Q) (num : Z) :
  num < 0 -> Np.linspace start stop num = inl ValueError.
Proof.
  intros H. unfold Np.linspace. apply Z.ltb_lt in H. rewrite H. reflexivity.
Qed.

Lemma linspace_total (start stop : Q) (num : Z) :
  0 <= num -> exists y, Np.linspace start stop num = inr y.
Proof.
  intros H. unfold Np.linspace.
  destruct (num <? 0) eqn:E; [apply Z.ltb_lt in E; lia|].
  eexists. reflexivity.
Qed.

Lemma nth_map_seq (f : nat -> Q) (n i : nat) :
  (i < n)%nat -> nth i (map f (seq 0 n)) 0%Q = f i.
Proof.
  intros Hi.
  rewrite (nth_indep _ 0%Q (f O)) by (rewrite length_map, length_seq; exact Hi).
  rewrite map_nth, seq_nth by exact Hi. reflexivity.
Qed.

Lemma linspace_spec (start stop : Q) (num : Z) (y : list Q) :
  Np.linspace start stop num = inr y ->
  0 <= num
  /\ evenly_spaced start stop num y
  /\ (2 <= num -> last y 0%Q = stop).
Proof.
  unfold Np.linspace, evenly_spaced.
  destruct (num <? 0) eqn:Eneg; [discriminate|].
  apply Z.ltb_ge in Eneg. intros H. injection H as <-.
  split; [exact Eneg|].
  set (n := Z.to_nat num).
  destruct (1 <? num) eqn:E1.
  - apply Z.ltb_lt in E1.
    assert (Ediv : (0 <? num - 1) = true) by (apply Z.ltb_lt; lia).
    rewrite Ediv. rewrite !map_map.
    set (f := fun i : nat =>
                (inject_Z (Z.of_nat i) * ((stop - start) / inject_Z (num - 1))
                 + start)%Q).
    assert (Hlen : List.length (map f (seq 0 n)) = n)
      by (rewrite length_map, length_seq; reflexivity).
    assert (Hne : map f (seq 0 n) <> []).
    { intros Hnil. rewrite Hnil in Hlen. simpl in Hlen. lia. }
    split; [split|].
    + rewrite set_last_length by exact Hne. exact Hlen.
    + intros i Hi. destruct (Nat.eq_dec i (pred n)) as [->|Hneq].
      * rewrite <- Hlen at 1. rewrite set_last_nth_last.
        replace (Z.of_nat (pred n)) with (num - 1) by lia.
        assert (Hnz : ~ (inject_Z (num - 1) == 0)%Q).
        { unfold Qeq. simpl. lia. }
        field. exact Hnz.
      * rewrite set_last_nth by (rewrite Hlen; lia).
        rewrite nth_map_seq by exact Hi. unfold f. ring.
    + intros _. apply set_last_last.
  - apply Z.ltb_ge in E1.
    assert (Ediv : (0 <? num - 1) = false) by (apply Z.ltb_ge; lia).
    rewrite Ediv. rewrite !map_map.
    split; [split|].
    + rewrite length_map, length_seq. reflexivity.
    + intros i Hi. rewrite nth_map_seq by exact Hi.
      assert (i = O) by lia. subst i. simpl. ring.
    + intros H2. lia.
Qed.

(** The run got as far as building the regridder (line 109). *)
Lemma tile_grid_built (L : Libs) (p t : string) (z x y size : Z)
    (ds : Dataset L) (w : World L) (g : GridOut) (m : string) :
  In (EvRegridder g m) (trace (get_image_tile L p t z x y size ds w)) ->
  exists b,
    bounds L x y z = inr b
    /\ Np.linspace (south b) (north b) size = inr (lat g)
    /\ Np.linspace (west b) (east b) size = inr (lon g)
    /\ m = "bilinear".
Proof.
  unfold get_image_tile. run_all.
  all: intros H; in_trace H.
  all: injection H as <- <-.
  all: eexists; repeat split; eassumption.
Qed.

(** The run got as far as [mercantile.bounds] (line 100), and goes on to
    the regridder when [size] is not negative. *)
Lemma tile_grid_progress (L : Libs) (p t : string) (z x y size : Z)
    (ds : Dataset L) (w : World L) (b : LngLatBbox) :
  In (EvBounds x y z) (trace (get_image_tile L p t z x y size ds w)) ->
  bounds L x y z = inr b ->
  0 <= size ->
  exists g, In (EvRegridder g "bilinear")
               (trace (get_image_tile L p t z x y size ds w)).
Proof.
  intros Hin Hb Hsize. revert Hin.
  destruct (linspace_total (south b) (north b) size Hsize) as [la Hla].
  destruct (linspace_total (west b) (east b) size Hsize) as [lo Hlo].
  unfold get_image_tile. run_all.
  all: intros H; in_trace H.
  all: try congruence.
  all: exists {| lat := la; lon := lo |}.
  all: repeat match goal with
         | Hb' : bounds _ _ _ _ = inr ?b' |- _ =>
             assert (b' = b) by congruence; subst b'; clear Hb'
         end.
  all: try congruence.
  all: repeat match goal with
         | H1 : Np.linspace ?a ?c ?s = inr ?l,
           H2 : Np.linspace ?a ?c ?s = inr ?l' |- _ =>
             assert (l' = l) by congruence; subst l'; clear H2
         end.
  all: simpl; tauto.
Qed.

(** C7, as stated, fails for a negative [size]: [numpy.linspace] raises
    [ValueError] and no grid is built. *)
Lemma C7_negative_size_builds_no_grid :
  ~ (forall (L : Libs) (p t : string) (z x y : Z) (size : option Z) (w : World L)
            (b : LngLatBbox),
        In (EvBounds x y z) (trace (serve L (ReqTile p t z x y size) w)) ->
        bounds L x y z = inr b ->
        exists g,
          In (EvRegridder g "bilinear") (trace (serve L (ReqTile p t z x y size) w))
          /\ evenly_spaced (south b) (north b) (size_or_default size) (lat g)
          /\ evenly_spaced (west b) (east b) (size_or_default size) (lon g)).
Proof.
  intros H.
  destruct (H Toy.libs "temp" "2022-01-01" 1 0 0 (Some (-1)) Toy.world0
              {| west := inject_Z 0; south := inject_Z (-1);
                 east := inject_Z 1; north := inject_Z 0 |})
    as (g & Hin & _).
  - vm_compute. repeat first [left; reflexivity | right].
  - reflexivity.
  - vm_compute in Hin. in_trace Hin.
Qed.

Example negative_size_raises :
  value (serve Toy.libs (ReqTile "temp" "2022-01-01" 1 0 0 (Some (-1))) Toy.world0)
  = inl ValueError.
Proof. vm_compute. reflexivity. Qed.

(** C7 (amended): the tile handler takes the bounding box of the tile
    from [mercantile.bounds(x, y, z)] and, for a [size] that is not
    negative, builds the output grid from [size] latitudes and [size]
    longitudes, evenly spaced from the south bound and from the west
    bound with steps [(north - south) / (size - 1)] and
    [(east - west) / (size - 1)]; for [size >= 2] the last latitude is the
    north bound and the last longitude the east bound.  [size] is 256
    when the request gives none.  A negative [size] builds no grid. *)
Theorem C7_tile_grid :
  forall (L : Libs) (p t : string) (z x y : Z) (size : option Z) (w : World L),
    (forall w', serve L (ReqTile p t z x y None) w'
                = serve L (ReqTile p t z x y (Some 256)) w')
    /\ (forall g m,
          In (EvRegridder g m) (trace (serve L (ReqTile p t z x y size) w)) ->
          exists b,
            bounds L x y z = inr b
            /\ m = "bilinear"
            /\ 0 <= size_or_default size
            /\ evenly_spaced (south b) (north b) (size_or_default size) (lat g)
            /\ evenly_spaced (west b) (east b) (size_or_default size) (lon g)
            /\ (2 <= size_or_default size ->
                last (lat g) 0%Q = north b /\ last (lon g) 0%Q = east b))
    /\ (forall b,
          In (EvBounds x y z) (trace (serve L (ReqTile p t z x y size) w)) ->
          bounds L x y z = inr b ->
          0 <= size_or_default size ->
          exists g, In (EvRegridder g "bilinear")
                       (trace (serve L (ReqTile p t z x y size) w)))
    /\ (size_or_default size < 0 ->
        forall g m,
          ~ In (EvRegridder g m) (trace (serve L (ReqTile p t z x y size) w))).
Proof.
  intros L p t z x y size w.
  assert (Hbuilt : forall g m,
             In (EvRegridder g m) (trace (serve L (ReqTile p t z x y size) w)) ->
             exists b,
               bounds L x y z = inr b
               /\ m = "bilinear"
               /\ 0 <= size_or_default size
               /\ evenly_spaced (south b) (north b) (size_or_default size) (lat g)
               /\ evenly_spaced (west b) (east b) (size_or_default size) (lon g)
               /\ (2 <= size_or_default size ->
                   last (lat g) 0%Q = north b /\ last (lon g) 0%Q = east b)).
  { intros g m Hin. rewrite serve_tile_trace in Hin.
    destruct Hin as [Hin|Hin]; [discriminate|].
    apply tile_grid_built in Hin. destruct Hin as (b & Hb & Hla & Hlo & Hm).
    apply linspace_spec in Hla. destruct Hla as (Hn & Hev1 & Hl1).
    apply linspace_spec in Hlo. destruct Hlo as (_ & Hev2 & Hl2).
    exists b. repeat split; auto; apply Hev1 || apply Hev2. }
  split; [reflexivity|]. split; [exact Hbuilt|]. split.
  - intros b Hin Hb Hn. rewrite serve_tile_trace in Hin.
    destruct Hin as [Hin|Hin]; [discriminate|].
    destruct (tile_grid_progress _ _ _ _ _ _ _ _ _ _ Hin Hb Hn) as [g Hg].
    exists g. rewrite serve_tile_trace. right. exact Hg.
  - intros Hneg g m Hin. apply Hbuilt in Hin.
    destruct Hin as (b & _ & _ & Hn & _). lia.
Qed.

(** The tile 1/0/0 at [size=2]: a grid of two latitudes and two
    longitudes. *)
Lemma C7_witness :
  exists b,
    bounds Toy.libs 0 0 1 = inr b
    /\ "bilinear" = "bilinear"
    /\ 0 <= 2
    /\ evenly_spaced (south b) (north b) 2 [inject_Z (-1); inject_Z 0]
    /\ evenly_spaced (west b) (east b) 2 [inject_Z 0; inject_Z 1]
    /\ (2 <= 2 ->
        last [inject_Z (-1); inject_Z 0] 0%Q = north b
        /\ last [inject_Z 0; inject_Z 1] 0%Q = east b).
Proof.
  apply (proj1 (proj2 (C7_tile_grid Toy.libs "temp" "2022-01-01" 1 0 0 (Some 2)
                         Toy.world0))
           {| lat := [inject_Z (-1); inject_Z 0];
              lon := [inject_Z 0; inject_Z 1] |} "bilinear").
  vm_compute. repeat first [left; reflexivity | right].
Defined.

(* ================================================================== *)
(** * C8: colour map and range of the two endpoints *)





Example tile_ignores_cmap_and_data :
  In (EvGetCmap "rainbow")
     (trace (serve Toy.libs (ReqTile "temp" "2022-01-01" 1 0 0 (Some 2)) Toy.world0))
  /\ In (EvScale (inject_Z 0) (inject_Z 5))
        (trace (serve Toy.libs (ReqTile "temp" "2022-01-01" 1 0 0 (Some 2)) Toy.world0)).
Proof. split; vm_compute; repeat first [left; reflexivity | right]. Qed.

Example image_uses_given_cmap :
  In (EvGetCmap "gray")
     (trace (get_image Toy.libs
               {| bbox := "0,0,10,10"; width := 3; height := 2;
                  parameter := "temp"; datetime := "2022-01-01";
                  crs := "EPSG:4326"; cmap := Some "gray" |}
               Toy.dataset0 Toy.world0)).
Proof. vm_compute. repeat first [left; reflexivity | right]. Qed.

(* ================================================================== *)
(** * Further properties: request construction and the bounding box *)

(** X1's instance: the run of [Toy.query0], [width=3] and [height=2]. *)
Lemma get_image_dims_witness :
  exists im,
    Image_save Toy.libs im "PNG"
    = inr [Byte.x02; Byte.x03; Byte.x00; Byte.x55; Byte.xaa; Byte.xff;
           Byte.x00; Byte.x55]
    /\ Image_height im = Z.to_nat 3
    /\ Image_width im = Z.to_nat 2.
Proof.
  apply (get_image_dims Toy.libs toy_reproject_shape_law
           {| bbox := "0,0,10,10"; width := 3; height := 2;
              parameter := "temp"; datetime := "2022-01-01";
              crs := "EPSG:4326"; cmap := None |}
           Toy.dataset0 Toy.world0
           {| content := [Byte.x02; Byte.x03; Byte.x00; Byte.x55; Byte.xaa;
                          Byte.xff; Byte.x00; Byte.x55];
              media_type := "image/png" |}).
  vm_compute. reflexivity.
Defined.


Lemma split_nonempty (sep : ascii) (s : string) : split sep s <> [].
Proof.
  destruct s as [|c s]; simpl; [discriminate|].
  destruct (Ascii.eqb c sep); [discriminate|].
  destruct (split sep s); discriminate.
Qed.

(** [str.split] gives one piece more than there are separators. *)
Lemma split_length (sep : ascii) (s : string) :
  List.length (split sep s) = S (count_char sep s).
Proof.
  induction s as [|c s IH]; simpl; [reflexivity|].
  destruct (Ascii.eqb c sep); simpl.
  - rewrite IH. reflexivity.
  - destruct (split sep s) as [|p ps] eqn:E; simpl in *;
      [discriminate IH|exact IH].
Qed.

Lemma get_image_parse_failure (L : Libs) (q : ImageQuery) (ds : Dataset L)
    (w : World L) (e : Exn) :
  parse_bbox (bbox q) = inl e ->
  value (get_image L q ds w) = inl e
  /\ trace (get_image L q ds w) = [EvParseBbox (bbox q)].
Proof.
  intros Hp. unfold get_image. run_simpl. rewrite Hp. split; reflexivity.
Qed.

(** X3: a [bbox] that does not hold exactly three commas, or that has an
    empty piece (an empty string, a leading, trailing or doubled comma),
    makes line 52 raise [ValueError] before anything else is done. *)
Theorem bbox_commas_and_empty_pieces :
  forall (L : Libs) (q : ImageQuery) (ds : Dataset L) (w : World L),
    count_char "," (bbox q) <> 3%nat \/ In "" (split "," (bbox q)) ->
    value (get_image L q ds w) = inl ValueError
    /\ trace (get_image L q ds w) = [EvParseBbox (bbox q)].
Proof.
  intros L q ds w H. apply get_image_parse_failure.
  apply parse_bbox_fails_iff.
  intros (a & b & c & d & fa & fb & fc & fd & Hs & Ha & Hb & Hc & Hd).
  destruct H as [Hn|Hin].
  - apply Hn. pose proof (split_length "," (bbox q)) as Hl.
    rewrite Hs in Hl. simpl in Hl. lia.
  - rewrite Hs in Hin. simpl in Hin.
    assert (Hnone : float "" = None) by reflexivity.
    destruct Hin as [E|[E|[E|[E|[]]]]]; rewrite E in *; congruence.
Qed.

Lemma bbox_commas_and_empty_pieces_witness :
  value (get_image Toy.libs
           {| bbox := "1,2,3,"; width := 3; height := 2; parameter := "temp";
              datetime := "2022-01-01"; crs := "EPSG:4326"; cmap := None |}
           Toy.dataset0 Toy.world0) = inl ValueError
  /\ trace (get_image Toy.libs
              {| bbox := "1,2,3,"; width := 3; height := 2; parameter := "temp";
                 datetime := "2022-01-01"; crs := "EPSG:4326"; cmap := None |}
              Toy.dataset0 Toy.world0) = [EvParseBbox "1,2,3,"].
Proof.
  apply (bbox_commas_and_empty_pieces Toy.libs
           {| bbox := "1,2,3,"; width := 3; height := 2; parameter := "temp";
              datetime := "2022-01-01"; crs := "EPSG:4326"; cmap := None |}).
  right. vm_compute. tauto.
Defined.

(** What the handler does with the two corners of the bounding box. *)
Lemma get_image_selection (L : Libs) (q : ImageQuery) (ds : Dataset L)
    (w : World L) (ix : Indexers) :
  In (EvSel ix) (trace (get_image L q ds w)) ->
  exists xmin ymin xmax ymax,
    parse_bbox (bbox q) = inr (xmin, ymin, xmax, ymax)
    /\ ((crs q = "EPSG:4326"
         /\ ix = [("X", Slice xmin xmax); ("Y", Slice ymin ymax);
                  ("T", Label (datetime q))])
        \/ (crs q <> "EPSG:4326"
            /\ exists t a b,
                 Transformer_from_crs L (crs q) "EPSG:4326" = inr t
                 /\ Transformer_transform L t xmin ymin = inr a
                 /\ Transformer_transform L t xmax ymax = inr b
                 /\ ix = [("X", Slice (fst a) (fst b));
                          ("Y", Slice (snd a) (snd b));
                          ("T", Label (datetime q))])).
Proof.
  unfold get_image. run_simpl.
  destruct (parse_bbox (bbox q)) as [e|[[[xmin ymin] xmax] ymax]];
    run_simpl; [intros H; in_trace H|].
  destruct (String.eqb_spec (crs q) "EPSG:4326") as [Hc|Hc]; run_all.
  all: intros H; in_trace H.
  all: injection H as <-.
  all: exists xmin, ymin, xmax, ymax; split; [reflexivity|].
  all: first [ left; split; [exact Hc|reflexivity]
             | right; split; [exact Hc|]; do 3 eexists;
               repeat split; eassumption || reflexivity ].
Qed.

(** X4: lines 54-61.  When [crs] is ["EPSG:4326"] pyproj is not called and
    the dataset is sliced by the numbers of [bbox] as they are: X from
    xmin to xmax, Y from ymin to ymax.  For any other [crs] one
    transformer from [crs] to EPSG:4326 is built, the corners
    (xmin, ymin) and (xmax, ymax) are transformed, and the dataset is
    sliced on X by the first components of the two results and on Y by
    their second components.  In both cases T is the [datetime] of the
    request. *)
Theorem bbox_corners_to_selection :
  forall (L : Libs) (q : ImageQuery) (ds : Dataset L) (w : World L),
    (crs q = "EPSG:4326" -> Forall no_pyproj (trace (get_image L q ds w)))
    /\ (forall ix,
          In (EvSel ix) (trace (get_image L q ds w)) ->
          exists xmin ymin xmax ymax,
            parse_bbox (bbox q) = inr (xmin, ymin, xmax, ymax)
            /\ ((crs q = "EPSG:4326"
                 /\ ix = [("X", Slice xmin xmax); ("Y", Slice ymin ymax);
                          ("T", Label (datetime q))])
                \/ (crs q <> "EPSG:4326"
                    /\ exists t a b,
                         Transformer_from_crs L (crs q) "EPSG:4326" = inr t
                         /\ Transformer_transform L t xmin ymin = inr a
                         /\ Transformer_transform L t xmax ymax = inr b
                         /\ ix = [("X", Slice (fst a) (fst b));
                                  ("Y", Slice (snd a) (snd b));
                                  ("T", Label (datetime q))]))).
Proof.
  intros L q ds w. split; [|intros ix; apply get_image_selection].
  intros Hc. apply Forall_forall. intros ev.
  unfold get_image. rewrite Hc, String.eqb_refl. cbn [negb]. run_all.
  all: intros H; simpl in H.
  all: repeat (destruct H as [H|H]; [subst ev; exact I|]).
  all: contradiction.
Qed.

Lemma bbox_corners_to_selection_witness :
  exists ix,
    In (EvSel ix)
       (trace (get_image Toy.libs
                 {| bbox := "0,0,10,10"; width := 3; height := 2;
                    parameter := "temp"; datetime := "2022-01-01";
                    crs := "EPSG:3857"; cmap := None |}
                 Toy.dataset0 Toy.world0))
    /\ exists xmin ymin xmax ymax,
         parse_bbox "0,0,10,10" = inr (xmin, ymin, xmax, ymax)
         /\ (("EPSG:3857" = "EPSG:4326"
              /\ ix = [("X", Slice xmin xmax); ("Y", Slice ymin ymax);
                       ("T", Label "2022-01-01")])
             \/ ("EPSG:3857" <> "EPSG:4326"
                 /\ exists t a b,
                      Transformer_from_crs Toy.libs "EPSG:3857" "EPSG:4326" = inr t
                      /\ Transformer_transform Toy.libs t xmin ymin = inr a
                      /\ Transformer_transform Toy.libs t xmax ymax = inr b
                      /\ ix = [("X", Slice (fst a) (fst b));
                               ("Y", Slice (snd a) (snd b));
                               ("T", Label "2022-01-01")])).
Proof.
  eexists. split.
  - vm_compute. repeat first [left; reflexivity | right].
  - apply (proj2 (bbox_corners_to_selection Toy.libs
                    {| bbox := "0,0,10,10"; width := 3; height := 2;
                       parameter := "temp"; datetime := "2022-01-01";
                       crs := "EPSG:3857"; cmap := None |}
                    Toy.dataset0 Toy.world0)).
    vm_compute. repeat first [left; reflexivity | right].
Defined.

(** X5: lines 85-87.  The run depends on [cmap] through the name that is
    looked up only: two requests that differ in [cmap] alone and end up
    with the same name have the same outcome.  So a missing [cmap], an
    empty one and ['rainbow'] are served alike. *)
Theorem cmap_only_through_its_name :
  forall (L : Libs) (b : string) (wd h : Z) (p d c : string)
         (cm1 cm2 : option string) (ds : Dataset L) (w : World L),
    cmap_used {| bbox := b; width := wd; height := h; parameter := p;
                 datetime := d; crs := c; cmap := cm1 |}
    = cmap_used {| bbox := b; width := wd; height := h; parameter := p;
                   datetime := d; crs := c; cmap := cm2 |} ->
    get_image L {| bbox := b; width := wd; height := h; parameter := p;
                   datetime := d; crs := c; cmap := cm1 |} ds w
    = get_image L {| bbox := b; width := wd; height := h; parameter := p;
                     datetime := d; crs := c; cmap := cm2 |} ds w.
Proof.
  intros L b wd h p d c cm1 cm2 ds w H.
  unfold cmap_used in H. cbn [cmap] in H.
  unfold get_image, truthy, set_cmap.
  cbn [bbox width height parameter datetime crs cmap].
  destruct cm1 as [n1|], cm2 as [n2|];
    try destruct (String.eqb n1 "") eqn:E1;
    try destruct (String.eqb n2 "") eqn:E2;
    cbn [negb cmap]; subst; try reflexivity.
  all: try (rewrite E1; reflexivity).
  all: try (rewrite E2; reflexivity).
Qed.

Lemma cmap_only_through_its_name_witness :
  get_image Toy.libs
    {| bbox := "0,0,10,10"; width := 3; height := 2; parameter := "temp";
       datetime := "2022-01-01"; crs := "EPSG:4326"; cmap := Some "" |}
    Toy.dataset0 Toy.world0
  = get_image Toy.libs
      {| bbox := "0,0,10,10"; width := 3; height := 2; parameter := "temp";
         datetime := "2022-01-01"; crs := "EPSG:4326"; cmap := Some "rainbow" |}
      Toy.dataset0 Toy.world0.
Proof.
  apply (cmap_only_through_its_name Toy.libs). reflexivity.
Defined.

(* ================================================================== *)
(** * Further properties: the data path *)

Lemma positive_shape_has_cells (r : raster) (h w : Z) :
  Np.shape r = (Z.to_nat h, Z.to_nat w) -> 0 < h -> 0 < w -> cells r <> [].
Proof.
  unfold Np.shape, cells. intros Hs Hh Hw.
  destruct r as [|row r]; [injection Hs as Hs _; lia|].
  injection Hs as _ Hrow. simpl.
  destruct row as [|v row]; [simpl in Hrow; lia|discriminate].
Qed.

Lemma reduce_succeeds (f : Q -> Q -> Q) (r : raster) :
  cells r <> [] -> exists v, Np.reduce f r = inr v.
Proof.
  unfold Np.reduce, cells. intros H.
  destruct (List.concat r) as [|v vs]; [contradiction|]. eexists. reflexivity.
Qed.

(** X6: lines 69-81.  Given rioxarray's reading of [shape] as
    (rows, columns), a request with positive [width] and [height] whose
    reprojection succeeded cannot fail in [min()] or [max()]: the run
    reaches the scaling. *)
Theorem min_and_max_cannot_fail :
  forall (L : Libs),
    reproject_shape_law L ->
    forall (q : ImageQuery) (ds : Dataset L) (w : World L),
      0 < width q -> 0 < height q ->
      In EvMin (trace (get_image L q ds w)) ->
      exists lo hi, In (EvScale lo hi) (trace (get_image L q ds w)).
Proof.
  intros L Hlaw q ds w Hw Hh.
  assert (Hred : forall da rd,
             da_rio_reproject L da (crs q) (Some (width q, height q))
               (Some bilinear) = inr rd ->
             (forall e, Np.amin (values L rd) <> inl e)
             /\ (forall e, Np.amax (values L rd) <> inl e)).
  { intros da rd Hr. apply Hlaw in Hr. destruct Hr as [Hs _].
    pose proof (positive_shape_has_cells _ _ _ Hs Hw Hh) as Hne.
    destruct (reduce_succeeds Qmin _ Hne) as [lo Hlo].
    destruct (reduce_succeeds Qmax _ Hne) as [hi Hhi].
    unfold Np.amin, Np.amax. rewrite Hlo, Hhi. split; discriminate. }
  unfold get_image. run_all.
  all: intros H; in_trace H.
  all: try (exfalso;
            match goal with
            | Hr : da_rio_reproject _ _ _ _ _ = inr ?rd,
              Hm : Np.amin _ = inl ?e |- _ =>
                exact (proj1 (Hred _ _ Hr) e Hm)
            | Hr : da_rio_reproject _ _ _ _ _ = inr ?rd,
              Hm : Np.amax _ = inl ?e |- _ =>
                exact (proj2 (Hred _ _ Hr) e Hm)
            end).
  all: do 2 eexists; simpl; repeat first [left; reflexivity | right].
Qed.

Lemma min_and_max_cannot_fail_witness :
  exists lo hi,
    In (EvScale lo hi)
       (trace (get_image Toy.libs
                 {| bbox := "0,0,10,10"; width := 3; height := 2;
                    parameter := "temp"; datetime := "2022-01-01";
                    crs := "EPSG:4326"; cmap := None |}
                 Toy.dataset0 Toy.world0)).
Proof.
  apply (min_and_max_cannot_fail Toy.libs toy_reproject_shape_law
           {| bbox := "0,0,10,10"; width := 3; height := 2;
              parameter := "temp"; datetime := "2022-01-01";
              crs := "EPSG:4326"; cmap := None |}).
  - reflexivity.
  - reflexivity.
  - vm_compute. repeat first [left; reflexivity | right].
Defined.





(* ================================================================== *)
(** * Further properties: the grid, the range and the pixels of a tile *)




(** X10: lines 104-107 at the two smallest sizes.  With [size=0] the
    regridder is given a grid with no latitude and no longitude; with
    [size=1] a grid of one point, the south-west corner of the tile.
    Neither is refused by the handler. *)
Theorem tile_grid_of_size_zero_and_one :
  forall (L : Libs) (p t : string) (z x y s : Z) (w : World L)
         (g : GridOut) (m : string),
    In (EvRegridder g m) (trace (serve L (ReqTile p t z x y (Some s)) w)) ->
    (s = 0 -> lat g = [] /\ lon g = [])
    /\ (s = 1 ->
        exists b la lo,
          bounds L x y z = inr b
          /\ lat g = [la] /\ lon g = [lo]
          /\ (la == south b)%Q /\ (lo == west b)%Q).
Proof.
  intros L p t z x y s w g m Hin.
  rewrite serve_tile_trace in Hin.
  destruct Hin as [Hin|Hin]; [discriminate|].
  apply tile_grid_built in Hin. destruct Hin as (b & Hb & Hla & Hlo & _).
  cbn [size_or_default] in Hla, Hlo.
  apply linspace_spec in Hla. destruct Hla as (_ & [Hl1 Hn1] & _).
  apply linspace_spec in Hlo. destruct Hlo as (_ & [Hl2 Hn2] & _).
  split; intros ->.
  - simpl in Hl1, Hl2.
    destruct (lat g); [|discriminate]. destruct (lon g); [|discriminate].
    split; reflexivity.
  - simpl in Hl1, Hl2.
    destruct (lat g) as [|la [|? ?]]; try discriminate.
    destruct (lon g) as [|lo [|? ?]]; try discriminate.
    exists b, la, lo. split; [exact Hb|].
    split; [reflexivity|]. split; [reflexivity|].
    specialize (Hn1 O). specialize (Hn2 O). simpl in Hn1, Hn2.
    split; [rewrite Hn1 by lia|rewrite Hn2 by lia]; ring.
Qed.

Lemma tile_grid_of_size_zero_and_one_witness :
  exists g,
    In (EvRegridder g "bilinear")
       (trace (serve Toy.libs (ReqTile "temp" "2022-01-01" 1 0 0 (Some 1))
                 Toy.world0))
    /\ (1 = 0 -> lat g = [] /\ lon g = [])
    /\ (1 = 1 ->
        exists b la lo,
          bounds Toy.libs 0 0 1 = inr b
          /\ lat g = [la] /\ lon g = [lo]
          /\ (la == south b)%Q /\ (lo == west b)%Q).
Proof.
  eexists. split.
  - vm_compute. repeat first [left; reflexivity | right].
  - apply (tile_grid_of_size_zero_and_one Toy.libs "temp" "2022-01-01" 1 0 0 1
             Toy.world0 _ "bilinear").
    vm_compute. repeat first [left; reflexivity | right].
Defined.







(* ================================================================== *)
(** * Further properties: looking up the parameter *)

Ltac use_getitem :=
  match goal with
  | H : getitem _ _ _ = _ |- _ => rewrite H
  end.

(** X13: [q[parameter]] of lines 69 and 110.  The variable is looked up
    by the name the request gives, in the dataset that came out of the
    selection, [squeeze] and, where the CRS was missing, [write_crs]: in
    [get_image] just before the reprojection, in [get_image_tile] only
    after the regridder has been built.  A name the dataset does not
    hold makes the handler raise the exception of the lookup itself, and
    no resampling is started. *)
Theorem parameter_lookup :
  forall (L : Libs) (ds : Dataset L) (w : World L),
    (forall q n,
        In (EvGetItem n) (trace (get_image L q ds w)) ->
        n = parameter q
        /\ exists ix d0 d1 d,
             cf_sel L ds ix = inr d0
             /\ squeeze L d0 = inr d1
             /\ ((truthy (rio_crs L d1) = true /\ d = d1)
                 \/ (truthy (rio_crs L d1) = false
                     /\ rio_write_crs L d1 4326 = inr d))
             /\ match getitem L d n with
                | inl e =>
                    value (get_image L q ds w) = inl e
                    /\ forall c sh rs,
                         ~ In (EvReproject c sh rs) (trace (get_image L q ds w))
                | inr _ =>
                    In (EvReproject (crs q) (Some (width q, height q))
                          (Some bilinear))
                       (trace (get_image L q ds w))
                end)
    /\ (forall p t z x y size n,
          In (EvGetItem n) (trace (get_image_tile L p t z x y size ds w)) ->
          n = p
          /\ (exists g, In (EvRegridder g "bilinear")
                           (trace (get_image_tile L p t z x y size ds w)))
          /\ exists d' d0 d,
               ((truthy (rio_crs L ds) = true /\ d' = ds)
                \/ (truthy (rio_crs L ds) = false
                    /\ rio_write_crs L ds 4326 = inr d'))
               /\ cf_sel L d' [("T", Label t)] = inr d0
               /\ squeeze L d0 = inr d
               /\ match getitem L d n with
                  | inl e =>
                      value (get_image_tile L p t z x y size ds w) = inl e
                      /\ ~ In EvRegrid (trace (get_image_tile L p t z x y size ds w))
                  | inr _ =>
                      In EvRegrid (trace (get_image_tile L p t z x y size ds w))
                  end).
Proof.
  intros L ds w. split.
  - intros q n. unfold get_image. run_all.
    all: intros H; in_trace H.
    all: injection H as <-.
    all: split; [reflexivity|].
    all: do 4 eexists.
    all: split; [eassumption|]. all: split; [eassumption|].
    all: split;
      [ first [ left; split; [|reflexivity];
                apply Bool.negb_false_iff; eassumption
              | right; split; [apply Bool.negb_true_iff; eassumption
                              |first [eassumption|reflexivity]] ] |].
    all: use_getitem.
    all: first [ split; [reflexivity|];
                 intros c sh rs Hin; in_trace Hin
               | simpl; repeat first [left; reflexivity | right] ].
  - intros p t z x y size n. unfold get_image_tile. run_all.
    all: intros H; in_trace H.
    all: injection H as <-.
    all: split; [reflexivity|].
    all: split; [eexists; simpl; repeat first [left; reflexivity | right]|].
    all: do 3 eexists.
    all: split;
      [ first [ left; split; [|reflexivity];
                apply Bool.negb_false_iff; eassumption
              | right; split; [apply Bool.negb_true_iff; eassumption
                              |first [eassumption|reflexivity]] ] |].
    all: split; [eassumption|]. all: split; [eassumption|].
    all: use_getitem.
    all: first [ split; [reflexivity|]; intros Hin; in_trace Hin
               | simpl; repeat first [left; reflexivity | right] ].
Qed.

(** A request for a variable the dataset does not hold. *)
Example unknown_parameter_raises_key_error :
  value (serve Toy.libs
           (ReqImage {| q_bbox := Some "0,0,10,10"; q_width := Some 3;
                        q_height := Some 2; q_parameter := Some "salinity";
                        q_datetime := Some "2022-01-01";
                        q_crs := Some "EPSG:4326"; q_cmap := None |})
           Toy.world0) = inl KeyError
  /\ value (serve Toy.libs (ReqTile "salinity" "2022-01-01" 1 0 0 None)
              Toy.world0) = inl KeyError.
Proof. split; vm_compute; reflexivity. Qed.
